(** * SGP30 gas-sensor driver (sgp30.py): checksum engine and protocol layer

    A shallow embedding of [sgp30.py].  Python integers are unbounded, so
    they are modelled as [Z] and every mask the source applies is written
    out.  The driver's methods run in a small state-and-exception monad over
    the world they touch: the driver object's attributes, the bytes the I2C
    device will deliver, and the trace of bus and timer calls. *)

From Stdlib Require Import ZArith Lia List String.
From stdpp Require Import base option list strings gmap.

Local Open Scope Z_scope.

(** ** Module constants *)

Definition _SGP30_DEFAULT_I2C_ADDR : Z := 0x58.
Definition _SGP30_FEATURESET : Z := 0x0020.
Definition _SGP30_CRC8_POLYNOMIAL : Z := 0x31.
Definition _SGP30_CRC8_INIT : Z := 0xFF.
Definition _SGP30_WORD_LEN : nat := 2.

(** ** Checksum engine *)

(** An element of a [bytes] or [bytearray] object. *)
Definition is_byte (b : Z) : Prop := 0 <= b < 256.

Definition is_byteb (b : Z) : bool := (0 <=? b) && (b <? 256).

(** A 16-bit protocol word. *)
Definition is_word16 (w : Z) : Prop := 0 <= w < 65536.

(** Python truthiness of an integer. *)
Definition truthy (z : Z) : bool := negb (z =? 0).

(** One pass of the inner [for _ in range(8)] loop of [generate_crc].
    The shift is not masked: [crc] grows past 8 bits. *)
Definition crc_shift (crc : Z) : Z :=
  if truthy (Z.land crc 0x80)
  then Z.lxor (Z.shiftl crc 1) _SGP30_CRC8_POLYNOMIAL
  else Z.shiftl crc 1.

(** One pass of the outer [for byte in data] loop. *)
Definition crc_update (crc byte : Z) : Z :=
  Nat.iter 8 crc_shift (Z.lxor crc byte).

(** [generate_crc(data)]: the only mask is the one at [return]. *)
Definition generate_crc (data : list Z) : Z :=
  Z.land (fold_left crc_update data _SGP30_CRC8_INIT) 0xFF.

(** *** Reference algorithm, as the specification words it

    CRC-8, polynomial 0x31, initial value 0xFF, no reflection, no final
    XOR, with the register masked to 8 bits after every shift. *)
Module Reference.

Definition mask8 (x : Z) : Z := Z.land x 0xFF.

Definition shift_step (crc : Z) : Z :=
  if truthy (Z.land crc 0x80)
  then mask8 (Z.lxor (Z.shiftl crc 1) 0x31)
  else mask8 (Z.shiftl crc 1).

Definition byte_step (crc b : Z) : Z :=
  Nat.iter 8 shift_step (Z.lxor crc b).

Definition compute_checksum (bytes : list Z) : Z :=
  fold_left byte_step bytes 0xFF.

End Reference.

(** ** Python values, exceptions and the world the driver runs in *)

(** The values the driver stores in attributes or returns.  [VI2C] is the
    reference to the bus object handed to the constructor. *)
Inductive pyval : Type :=
| VNone
| VBool (b : bool)
| VInt (z : Z)
| VList (l : list Z)
| VI2C.

Inductive exn : Type :=
| RuntimeError (msg : string)
| ValueError
| IndexError
| TypeError
| AttributeError (name : string)
| OSError.

(** Calls that leave the driver, in the order they are made.  Durations of
    [time.sleep] are kept in milliseconds: the source's [0.01] and [0.05]
    seconds are [10] and [50]. *)
Inductive event : Type :=
| EvWriteto (addr : Z) (data : list Z)
| EvSleep (ms : Z)
| EvReadfromInto (addr : Z) (nbytes : nat).

(** [self] is the attribute dictionary of the driver object, [rx] the bytes
    the device will deliver to the coming reads, [trace] the calls made so
    far, oldest first. *)
Record world : Type := World {
  self : gmap string pyval;
  rx : list Z;
  trace : list event
}.

Inductive outcome (A : Type) : Type :=
| Return (a : A)
| Raise (e : exn).
Arguments Return {A} a.
Arguments Raise {A} e.

(** State and exceptions: an exception keeps the effects made before it. *)
Definition M (A : Type) : Type := world -> outcome A * world.

#[global] Instance M_ret : MRet M := fun A a w => (Return a, w).

#[global] Instance M_bind : MBind M := fun A B f m w =>
  match m w with
  | (Return a, w') => f a w'
  | (Raise e, w') => (Raise e, w')
  end.

Definition raise {A : Type} (e : exn) : M A := fun w => (Raise e, w).

Definition emit (e : event) : M unit := fun w =>
  (Return tt, World (self w) (rx w) (trace w ++ [e])).

(** [self.name], [self.name = v], [l[i]] and [v[i]]. *)
Definition getattr (name : string) : M pyval := fun w =>
  match self w !! name with
  | Some v => (Return v, w)
  | None => (Raise (AttributeError name), w)
  end.

Definition setattr (name : string) (v : pyval) : M unit := fun w =>
  (Return tt, World (<[name := v]> (self w)) (rx w) (trace w)).

Definition getitem (l : list Z) (i : nat) : M Z :=
  match l !! i with
  | Some x => mret x
  | None => raise IndexError
  end.

Definition subscript (v : pyval) (i : nat) : M Z :=
  match v with
  | VList l => getitem l i
  | _ => raise TypeError
  end.

(** [for x in xs: body], threading the variables the body assigns. *)
Fixpoint for_each {A S : Type} (xs : list A) (body : A -> S -> M S) (s : S) : M S :=
  match xs with
  | [] => mret s
  | x :: xs' => s' ← body x s; for_each xs' body s'
  end.

(** ** The bus collaborator *)

(** [bytes(command)]: every element must be in [range(256)]. *)
Definition bytes (command : list Z) : M (list Z) :=
  if forallb is_byteb command then mret command else raise ValueError.

(** The object behind [self._i2c]; only the bus has the I2C methods. *)
Definition the_i2c : M unit :=
  v ← getattr "_i2c";
  match v with
  | VI2C => mret tt
  | _ => raise (AttributeError "writeto")
  end.

Definition the_addr : M Z :=
  v ← getattr "_addr";
  match v with
  | VInt a => mret a
  | _ => raise TypeError
  end.

(** [i2c.writeto(addr, buf)]. *)
Definition writeto (addr : Z) (buf : list Z) : M unit :=
  emit (EvWriteto addr buf).

(** [i2c.readfrom_into(addr, buf)]: fills [buf] with the next [len(buf)]
    bytes of the device; a device that has fewer is a transport error.
    The filled buffer is returned. *)
Definition readfrom_into (addr : Z) (buf : list Z) : M (list Z) := fun w =>
  let n := length buf in
  let w' := World (self w) (rx w) (trace w ++ [EvReadfromInto addr n]) in
  if (n <=? length (rx w))%nat
  then (Return (take n (rx w)), World (self w) (drop n (rx w)) (trace w'))
  else (Raise OSError, w').

Definition time_sleep (ms : Z) : M unit := emit (EvSleep ms).

(** ** The driver, class [SGP30] *)

(** Body of the reply loop of [_i2c_read_words_from_cmd] for word [i]. *)
Definition read_word (crc_result : list Z) (i : nat) (result : list Z) : M (list Z) :=
  w0 ← getitem crc_result (3 * i);
  w1 ← getitem crc_result (3 * i + 1);
  crc ← getitem crc_result (3 * i + 2);
  if negb (generate_crc [w0; w1] =? crc)
  then raise (RuntimeError "CRC Error")
  else mret (result ++ [Z.lor (Z.shiftl w0 8) w1]).

Definition _i2c_read_words_from_cmd
    (command : list Z) (delay : Z) (reply_size : nat) : M pyval :=
  the_i2c;;
  addr ← the_addr;
  buf ← bytes command;
  writeto addr buf;;
  time_sleep delay;;
  if (reply_size =? 0)%nat then mret VNone else
  the_i2c;;
  addr ← the_addr;
  crc_result ← readfrom_into addr (replicate (reply_size * (_SGP30_WORD_LEN + 1)) 0);
  result ← for_each (seq 0 reply_size) (read_word crc_result) [];
  mret (VList result).

(** A profile is [name, command, signals, delay]. *)
Definition _run_profile (profile : string * list Z * nat * Z) : M pyval :=
  let '(_, command, signals, delay) := profile in
  _i2c_read_words_from_cmd command delay signals.

Definition initalise_indoor_air_quality : M pyval :=
  _run_profile ("initalise_indoor_air_quality", [0x20; 0x03], 0%nat, 10);;
  mret VNone.

Definition iaq_measure : M pyval :=
  _run_profile ("iaq_measure", [0x20; 0x08], 2%nat, 50).

(** The getter of the [iaq_baseline] property. *)
Definition iaq_baseline : M pyval :=
  _run_profile ("iaq_get_baseline", [0x20; 0x15], 2%nat, 10).

(** Body of the loop of the setter: [arr] for one value, appended to
    [buffer]. *)
Definition baseline_word (value : Z) : list Z :=
  let arr := [Z.shiftr value 8; Z.land value 0xFF] in
  arr ++ [generate_crc arr].

(** The function under [@iaq_baseline.setter], called with its two values. *)
Definition iaq_baseline_setter
    (co2_equivalent total_volatile_organic_compounds : Z) : M pyval :=
  if (co2_equivalent =? 0) && (total_volatile_organic_compounds =? 0)
  then raise (RuntimeError "Invalid baseline")
  else
    let buffer :=
      fold_left (fun buffer value => buffer ++ baseline_word value)
                [total_volatile_organic_compounds; co2_equivalent] [] in
    _run_profile ("iaq_set_baseline", [0x20; 0x1e] ++ buffer, 0%nat, 10);;
    mret VNone.

Definition tvoc : M Z := r ← iaq_measure; subscript r 1.

Definition co2_equivalent : M Z := r ← iaq_measure; subscript r 0.

(** [baseline_tvoc] and [baseline_co2_equivilant] call
    [self.get_iaq_baseline], a method the class does not define. *)
Definition get_iaq_baseline : M pyval :=
  getattr "get_iaq_baseline";; raise TypeError.

Definition baseline_tvoc : M Z := r ← get_iaq_baseline; subscript r 1.

Definition baseline_co2_equivilant : M Z := r ← get_iaq_baseline; subscript r 0.

Definition __init__ (address : Z) : M unit :=
  setattr "_i2c" VI2C;;
  setattr "_addr" (VInt address);;
  serial ← _i2c_read_words_from_cmd [0x36; 0x82] 10 3;
  setattr "serial" serial;;
  featureset ← _i2c_read_words_from_cmd [0x20; 0x2f] 10 1;
  f0 ← subscript featureset 0;
  if negb (f0 =? _SGP30_FEATURESET)
  then raise (RuntimeError "SGP30 Not detected")
  else initalise_indoor_air_quality;; mret tt.

(** [SGP30(i2c, address)]: a fresh object is initialised; the caller gets
    the handle, the [self] of the resulting world, only on [Return]. *)
Definition SGP30 (address : Z) : M unit := fun w =>
  __init__ address (World ∅ (rx w) (trace w)).

(** The operations a caller can run on a constructed handle. *)
Inductive operation : Type :=
| OpInitIaq
| OpMeasure
| OpGetBaseline
| OpSetBaseline (co2 tvoc : Z)
| OpTvoc
| OpCo2
| OpBaselineTvoc
| OpBaselineCo2.

Definition run_operation (o : operation) : M pyval :=
  match o with
  | OpInitIaq => initalise_indoor_air_quality
  | OpMeasure => iaq_measure
  | OpGetBaseline => iaq_baseline
  | OpSetBaseline co2 tvoc => iaq_baseline_setter co2 tvoc
  | OpTvoc => z ← tvoc; mret (VInt z)
  | OpCo2 => z ← co2_equivalent; mret (VInt z)
  | OpBaselineTvoc => z ← baseline_tvoc; mret (VInt z)
  | OpBaselineCo2 => z ← baseline_co2_equivilant; mret (VInt z)
  end.

(** A handle as a successful construction leaves it: the bus reference and
    the address are in place. *)
Definition handle_at (w : world) (addr : Z) : Prop :=
  self w !! "_i2c" = Some VI2C /\ self w !! "_addr" = Some (VInt addr).

(** ** Vocabulary of the statements *)

(** Word [i] of a raw reply and whether its checksum byte matches. *)
Definition word_at (buf : list Z) (i : nat) : Z :=
  Z.lor (Z.shiftl (nth (3 * i) buf 0) 8) (nth (3 * i + 1) buf 0).

Definition crc_okb (buf : list Z) (i : nat) : bool :=
  generate_crc [nth (3 * i) buf 0; nth (3 * i + 1) buf 0] =? nth (3 * i + 2) buf 0.

(** A world holding a handle at the default address; the device will
    deliver [reply]. *)
Definition sample_world (reply : list Z) : world :=
  World (<["_addr" := VInt _SGP30_DEFAULT_I2C_ADDR]> (<["_i2c" := VI2C]> ∅)) reply [].

(** The attributes [__init__] has assigned before its first transaction. *)
Definition attrs_before_serial (address : Z) : gmap string pyval :=
  <["_addr" := VInt address]> (<["_i2c" := VI2C]> ∅).

(** A computation that assigns no attribute of [self]. *)
Definition keeps_self {A : Type} (m : M A) : Prop :=
  forall w : world, self (snd (m w)) = self w.

(** A world whose device answers the construction with a serial number and
    the expected feature set. *)
Definition genuine_device : world :=
  World ∅ (baseline_word 0x0000 ++ baseline_word 0x01A2 ++ baseline_word 0xB3C4 ++
           baseline_word _SGP30_FEATURESET) [].

(** The bus call an event records, if it is one, goes to [addr]. *)
Definition addressed_to (addr : Z) (e : event) : Prop :=
  match e with
  | EvWriteto a _ => a = addr
  | EvSleep _ => True
  | EvReadfromInto a _ => a = addr
  end.

(** A caller reading both gas properties, [co2_equivalent] then [tvoc]. *)
Definition read_both : M (Z * Z) :=
  co2 ← co2_equivalent;
  voc ← tvoc;
  mret (co2, voc).

(** Eight shifts of the masked register: what one data byte costs. *)
Definition byte_pass (x : Z) : Z := Nat.iter 8 Reference.shift_step x.

(** A caller reading the baseline and writing it straight back. *)
Definition restore_baseline : M pyval :=
  r ← iaq_baseline;
  co2 ← subscript r 0;
  voc ← subscript r 1;
  iaq_baseline_setter co2 voc.

(** ** Facts about the 8-bit mask *)

Section Mask8.
Import Reference.

Lemma mask8_mod x : mask8 x = x mod 256.
Proof. unfold mask8. change 0xFF with (Z.ones 8). now rewrite Z.land_ones. Qed.

Lemma mask8_range x : 0 <= mask8 x < 256.
Proof. rewrite mask8_mod. apply Z.mod_pos_bound. lia. Qed.

Lemma mask8_idem x : mask8 (mask8 x) = mask8 x.
Proof. rewrite !mask8_mod. apply Z.mod_mod. lia. Qed.

Lemma mask8_byte b : is_byte b -> mask8 b = b.
Proof. intros Hb. rewrite mask8_mod. apply Z.mod_small. exact Hb. Qed.

Lemma mask8_lxor a b : mask8 (Z.lxor a b) = Z.lxor (mask8 a) (mask8 b).
Proof.
  unfold mask8. apply Z.bits_inj'. intros n _.
  rewrite Z.lxor_spec, !Z.land_spec, Z.lxor_spec.
  destruct (Z.testbit a n), (Z.testbit b n), (Z.testbit 0xFF n); reflexivity.
Qed.

Lemma mask8_shiftl1 c : mask8 (Z.shiftl (mask8 c) 1) = mask8 (Z.shiftl c 1).
Proof.
  rewrite !mask8_mod, !Z.shiftl_mul_pow2 by lia.
  change (2 ^ 1) with 2.
  rewrite Z.mul_mod_idemp_l by lia. reflexivity.
Qed.

Lemma mask8_high_bit c : Z.land (mask8 c) 0x80 = Z.land c 0x80.
Proof. unfold mask8. now rewrite <- Z.land_assoc. Qed.

(** The unmasked step of the code and the masked step of the reference
    agree on the low 8 bits. *)
Lemma crc_shift_mask8 c : mask8 (crc_shift c) = shift_step (mask8 c).
Proof.
  unfold crc_shift, shift_step, _SGP30_CRC8_POLYNOMIAL.
  rewrite mask8_high_bit.
  destruct (truthy (Z.land c 0x80)).
  - rewrite !mask8_lxor, mask8_shiftl1. reflexivity.
  - now rewrite mask8_shiftl1.
Qed.

Lemma crc_shift_iter_mask8 n c :
  mask8 (Nat.iter n crc_shift c) = Nat.iter n shift_step (mask8 c).
Proof.
  induction n as [|n IH]; simpl; [reflexivity|].
  now rewrite crc_shift_mask8, IH.
Qed.

Lemma crc_update_mask8 c b :
  is_byte b -> mask8 (crc_update c b) = byte_step (mask8 c) b.
Proof.
  intros Hb. unfold crc_update, byte_step.
  now rewrite crc_shift_iter_mask8, mask8_lxor, (mask8_byte b).
Qed.

Lemma fold_crc_update_mask8 data : forall c,
  Forall is_byte data ->
  mask8 (fold_left crc_update data c) = fold_left byte_step data (mask8 c).
Proof.
  induction data as [|b data IH]; intros c Hd; simpl; [reflexivity|].
  inversion Hd as [|? ? Hb Hrest]; subst.
  now rewrite IH, crc_update_mask8.
Qed.

Lemma generate_crc_range (data : list Z) : 0 <= generate_crc data < 256.
Proof. unfold generate_crc. apply mask8_range. Qed.

End Mask8.

(** C1. On every sequence of 8-bit bytes, [generate_crc], which masks only
    once at return, equals the reference CRC-8 (polynomial 0x31, initial
    value 0xFF, no reflection, no final XOR) that masks after every shift;
    the result lies in 0..255. *)
Theorem generate_crc_refines_reference (data : list Z) :
  Forall is_byte data ->
  generate_crc data = Reference.compute_checksum data /\
  0 <= generate_crc data < 256.
Proof.
  intros Hd. split.
  - unfold generate_crc, Reference.compute_checksum.
    change (Z.land ?x 0xFF) with (Reference.mask8 x).
    now rewrite fold_crc_update_mask8.
  - apply generate_crc_range.
Qed.

Lemma generate_crc_refines_reference_witness :
  generate_crc [0x12; 0x34; 0xFF; 0x00] = Reference.compute_checksum [0x12; 0x34; 0xFF; 0x00] /\
  0 <= generate_crc [0x12; 0x34; 0xFF; 0x00] < 256.
Proof.
  apply (generate_crc_refines_reference [0x12; 0x34; 0xFF; 0x00]).
  repeat constructor; unfold is_byte; lia.
Defined.

(** C8. The published test vector: the checksum of [0xBE, 0xEF] is 0x92. *)
Theorem generate_crc_beef : generate_crc [0xBE; 0xEF] = 0x92.
Proof. reflexivity. Qed.

(** C10. The checksum of no data is the initial value 0xFF. *)
Theorem generate_crc_empty : generate_crc [] = 0xFF.
Proof. reflexivity. Qed.

(** ** Running one bus transaction *)

Section Transaction.

#[local] Arguments generate_crc : simpl never.

Lemma getitem_in_range (l : list Z) (i : nat) (w : world) :
  (i < length l)%nat -> getitem l i w = (Return (nth i l 0), w).
Proof.
  intros Hi. unfold getitem.
  destruct (lookup_lt_is_Some_2 l i Hi) as [x Hx].
  rewrite Hx. rewrite nth_lookup, Hx. reflexivity.
Qed.

Lemma read_word_in_range (buf : list Z) (i : nat) (acc : list Z) (w : world) :
  (3 * i + 2 < length buf)%nat ->
  read_word buf i acc w =
    if crc_okb buf i
    then (Return (acc ++ [word_at buf i]), w)
    else (Raise (RuntimeError "CRC Error"), w).
Proof.
  intros Hi. unfold read_word, mbind, M_bind.
  rewrite !getitem_in_range by lia.
  unfold crc_okb, word_at.
  destruct (generate_crc _ =? _); reflexivity.
Qed.

(** The reply loop with every checksum right: all words, in order. *)
Lemma for_each_read_word_ok (buf : list Z) (n : nat) (w : world) :
  forall (idx : list nat) (acc : list Z),
  (3 * n <= length buf)%nat ->
  (forall i, In i idx -> (i < n)%nat /\ crc_okb buf i = true) ->
  for_each idx (read_word buf) acc w = (Return (acc ++ map (word_at buf) idx), w).
Proof.
  induction idx as [|i idx IH]; intros acc Hlen Hall; simpl.
  - now rewrite app_nil_r.
  - destruct (Hall i (or_introl eq_refl)) as [Hi Hok].
    unfold mbind, M_bind. rewrite read_word_in_range, Hok by lia.
    rewrite IH; [|assumption|intros j Hj; apply Hall; now right].
    now rewrite <- app_assoc.
Qed.

(** The reply loop with one checksum wrong: the error, whatever the
    other words hold. *)
Lemma for_each_read_word_bad (buf : list Z) (n : nat) (w : world) (bad : nat) :
  forall (idx : list nat) (acc : list Z),
  (3 * n <= length buf)%nat ->
  (forall i, In i idx -> (i < n)%nat) ->
  In bad idx -> crc_okb buf bad = false ->
  for_each idx (read_word buf) acc w = (Raise (RuntimeError "CRC Error"), w).
Proof.
  induction idx as [|i idx IH]; intros acc Hlen Hall Hin Hbad; simpl.
  - destruct Hin.
  - pose proof (Hall i (or_introl eq_refl)) as Hi.
    unfold mbind, M_bind. rewrite read_word_in_range by lia.
    destruct (crc_okb buf i) eqn:Hok; [|reflexivity].
    destruct Hin as [->|Hin]; [congruence|].
    apply IH; auto. intros j Hj. apply Hall. now right.
Qed.

Lemma bytes_valid (command : list Z) (w : world) :
  forallb is_byteb command = true -> bytes command w = (Return command, w).
Proof. intros H. unfold bytes. now rewrite H. Qed.

Lemma the_i2c_handle (w : world) (addr : Z) :
  handle_at w addr -> the_i2c w = (Return tt, w).
Proof.
  intros [Hi _]. unfold the_i2c, mbind, M_bind, getattr. now rewrite Hi.
Qed.

Lemma the_addr_handle (w : world) (addr : Z) :
  handle_at w addr -> the_addr w = (Return addr, w).
Proof.
  intros [_ Ha]. unfold the_addr, mbind, M_bind, getattr. now rewrite Ha.
Qed.

(** A command without reply: one write, one sleep. *)
Lemma transaction_no_reply (w : world) (addr : Z) (command : list Z) (delay : Z) :
  handle_at w addr ->
  forallb is_byteb command = true ->
  _i2c_read_words_from_cmd command delay 0 w =
    (Return VNone,
     World (self w) (rx w) (trace w ++ [EvWriteto addr command; EvSleep delay])).
Proof.
  intros Hh Hc. unfold _i2c_read_words_from_cmd, mbind, M_bind.
  rewrite (the_i2c_handle w addr Hh), (the_addr_handle w addr Hh), (bytes_valid _ _ Hc).
  cbn. now rewrite <- app_assoc.
Qed.

(** A command with a reply the device can deliver: write, sleep, read,
    then the reply loop over the bytes read. *)
Lemma transaction_reply (w : world) (addr : Z) (command : list Z) (delay : Z) (n : nat) :
  handle_at w addr ->
  forallb is_byteb command = true ->
  (0 < n)%nat ->
  (3 * n <= length (rx w))%nat ->
  _i2c_read_words_from_cmd command delay n w =
    let w' := World (self w) (drop (3 * n) (rx w))
                (trace w ++ [EvWriteto addr command; EvSleep delay;
                             EvReadfromInto addr (3 * n)]) in
    match for_each (seq 0 n) (read_word (take (3 * n) (rx w))) [] w' with
    | (Return result, w'') => (Return (VList result), w'')
    | (Raise e, w'') => (Raise e, w'')
    end.
Proof.
  intros Hh Hc Hn Hlen. unfold _i2c_read_words_from_cmd, mbind, M_bind.
  rewrite (the_i2c_handle w addr Hh), (the_addr_handle w addr Hh), (bytes_valid _ _ Hc).
  cbn [writeto time_sleep emit self rx trace].
  destruct (Nat.eqb_spec n 0) as [->|_]; [lia|].
  set (w1 := World _ _ _).
  assert (Hh1 : handle_at w1 addr) by exact Hh.
  rewrite (the_i2c_handle w1 addr Hh1), (the_addr_handle w1 addr Hh1).
  unfold readfrom_into. rewrite length_replicate.
  replace (n * (_SGP30_WORD_LEN + 1))%nat with (3 * n)%nat by (unfold _SGP30_WORD_LEN; lia).
  subst w1. cbn [self rx trace].
  destruct (Nat.leb_spec (3 * n) (length (rx w))) as [_|]; [|lia].
  rewrite <- !app_assoc. cbn [app].
  destruct (for_each _ _ _ _) as [[r|e] w2]; reflexivity.
Qed.

Lemma forallb_false_inv {A : Type} (f : A -> bool) (l : list A) :
  forallb f l = false -> exists x, In x l /\ f x = false.
Proof.
  induction l as [|a l IH]; [discriminate|].
  cbn [forallb]. destruct (f a) eqn:Ha; cbn [andb]; intros H.
  - destruct (IH H) as [x [Hx Hbad]]. exists x. split; [now right|assumption].
  - exists a. split; [now left|assumption].
Qed.

(** The reply loop in full: the words when every checksum matches, the
    error otherwise. *)
Lemma for_each_read_word_spec (buf : list Z) (n : nat) (w : world) :
  forall (idx : list nat) (acc : list Z),
  (3 * n <= length buf)%nat ->
  (forall i, In i idx -> (i < n)%nat) ->
  for_each idx (read_word buf) acc w =
    if forallb (crc_okb buf) idx
    then (Return (acc ++ map (word_at buf) idx), w)
    else (Raise (RuntimeError "CRC Error"), w).
Proof.
  intros idx acc Hlen Hall.
  destruct (forallb (crc_okb buf) idx) eqn:Hf.
  - apply (for_each_read_word_ok buf n); [assumption|].
    intros i Hi. split; [now apply Hall|].
    rewrite forallb_forall in Hf. now apply Hf.
  - destruct (forallb_false_inv _ _ Hf) as [i [Hi Hbad]].
    now apply (for_each_read_word_bad buf n w i).
Qed.

(** One transaction in full, on a handle and a command of bytes. *)
Lemma transaction_spec (w : world) (addr : Z) (command : list Z) (delay : Z) (n : nat) :
  handle_at w addr ->
  forallb is_byteb command = true ->
  (0 < n)%nat ->
  _i2c_read_words_from_cmd command delay n w =
    let tr := trace w ++ [EvWriteto addr command; EvSleep delay;
                          EvReadfromInto addr (3 * n)] in
    let buf := take (3 * n) (rx w) in
    if (3 * n <=? length (rx w))%nat
    then if forallb (crc_okb buf) (seq 0 n)
         then (Return (VList (map (word_at buf) (seq 0 n))),
               World (self w) (drop (3 * n) (rx w)) tr)
         else (Raise (RuntimeError "CRC Error"),
               World (self w) (drop (3 * n) (rx w)) tr)
    else (Raise OSError, World (self w) (rx w) tr).
Proof.
  intros Hh Hc Hn. cbv zeta.
  destruct (Nat.leb_spec (3 * n) (length (rx w))) as [Hlen|Hshort].
  - rewrite (transaction_reply w addr) by assumption. cbv zeta.
    rewrite (for_each_read_word_spec _ n).
    + destruct (forallb (crc_okb _) _); reflexivity.
    + rewrite length_take. lia.
    + intros i Hi. apply in_seq in Hi. lia.
  - unfold _i2c_read_words_from_cmd, mbind, M_bind.
    rewrite (the_i2c_handle w addr Hh), (the_addr_handle w addr Hh), (bytes_valid _ _ Hc).
    cbn [writeto time_sleep emit self rx trace].
    destruct (Nat.eqb_spec n 0) as [->|_]; [lia|].
    set (w1 := World _ _ _).
    assert (Hh1 : handle_at w1 addr) by exact Hh.
    rewrite (the_i2c_handle w1 addr Hh1), (the_addr_handle w1 addr Hh1).
    unfold readfrom_into. rewrite length_replicate.
    replace (n * (_SGP30_WORD_LEN + 1))%nat with (3 * n)%nat
      by (unfold _SGP30_WORD_LEN; lia).
    subst w1. cbn [self rx trace].
    destruct (Nat.leb_spec (3 * n) (length (rx w))) as [|_]; [lia|].
    rewrite <- !app_assoc. reflexivity.
Qed.

End Transaction.

(** ** Reply decoding: all or nothing *)

Section Replies.

#[local] Arguments generate_crc : simpl never.

Lemma crc_okb_take_false (l : list Z) (n i : nat) (d0 d1 c : Z) :
  (i < n)%nat ->
  l !! (3 * i)%nat = Some d0 ->
  l !! (3 * i + 1)%nat = Some d1 ->
  l !! (3 * i + 2)%nat = Some c ->
  generate_crc [d0; d1] <> c ->
  crc_okb (take (3 * n) l) i = false.
Proof.
  intros Hi H0 H1 H2 Hne. unfold crc_okb.
  rewrite !nth_lookup, !lookup_take_lt by lia.
  rewrite H0, H1, H2. cbn. now apply Z.eqb_neq.
Qed.

(** Joining the two bytes [baseline_word] splits a value into gives the
    value back. *)
Lemma join_split (v : Z) : Z.lor (Z.shiftl (Z.shiftr v 8) 8) (Z.land v 0xFF) = v.
Proof.
  apply Z.bits_inj'. intros n Hn.
  rewrite Z.lor_spec, Z.land_spec.
  destruct (Z.ltb_spec n 8) as [Hlt|Hge].
  - rewrite Z.shiftl_spec_low by lia.
    change 0xFF with (Z.ones 8). rewrite Z.ones_spec_low by lia.
    now rewrite andb_true_r.
  - rewrite Z.shiftl_spec, Z.shiftr_spec by lia.
    replace (n - 8 + 8) with n by lia.
    change 0xFF with (Z.ones 8). rewrite Z.ones_spec_high by lia.
    now rewrite andb_false_r, orb_false_r.
Qed.

Lemma baseline_word_bytes (v : Z) : is_word16 v -> Forall is_byte (baseline_word v).
Proof.
  intros [Hlo Hhi]. unfold baseline_word. repeat constructor.
  - rewrite Z.shiftr_div_pow2 by lia. apply Z.div_pos; lia.
  - rewrite Z.shiftr_div_pow2 by lia. apply Z.div_lt_upper_bound; lia.
  - apply (mask8_range v).
  - apply (mask8_range v).
  - apply generate_crc_range.
  - apply generate_crc_range.
Qed.

End Replies.

(** C2. A reply word whose checksum byte disagrees with the recomputed
    checksum makes the whole read transaction raise the CRC error: the call
    has no return value, so no prefix of decoded words reaches the caller,
    whatever the other words hold. *)
Theorem crc_mismatch_fails_whole_read
    (w : world) (addr : Z) (command : list Z) (delay : Z)
    (reply_size i : nat) (d0 d1 c : Z) :
  handle_at w addr ->
  forallb is_byteb command = true ->
  (i < reply_size)%nat ->
  (3 * reply_size <= length (rx w))%nat ->
  rx w !! (3 * i)%nat = Some d0 ->
  rx w !! (3 * i + 1)%nat = Some d1 ->
  rx w !! (3 * i + 2)%nat = Some c ->
  generate_crc [d0; d1] <> c ->
  exists w', _i2c_read_words_from_cmd command delay reply_size w =
             (Raise (RuntimeError "CRC Error"), w').
Proof.
  intros Hh Hc Hi Hlen H0 H1 H2 Hne.
  rewrite (transaction_reply w addr) by (auto; lia). cbv zeta.
  rewrite (for_each_read_word_bad _ reply_size _ i).
  - eexists. reflexivity.
  - rewrite length_take. lia.
  - intros j Hj. apply in_seq in Hj. lia.
  - apply in_seq. lia.
  - now apply (crc_okb_take_false _ _ _ d0 d1 c).
Qed.

(** Measure-IAQ with a valid first word and a corrupted checksum on the
    second. *)
Lemma crc_mismatch_fails_whole_read_witness :
  exists w',
    iaq_measure (sample_world [0x01; 0x90; generate_crc [0x01; 0x90]; 0x00; 0x05; 0x00]) =
    (Raise (RuntimeError "CRC Error"), w').
Proof.
  apply (crc_mismatch_fails_whole_read
           (sample_world [0x01; 0x90; generate_crc [0x01; 0x90]; 0x00; 0x05; 0x00])
           _SGP30_DEFAULT_I2C_ADDR [0x20; 0x08] 50 2 1 0x00 0x05 0x00).
  - split; reflexivity.
  - reflexivity.
  - lia.
  - simpl. lia.
  - reflexivity.
  - reflexivity.
  - reflexivity.
  - vm_compute. discriminate.
Defined.

(** C3. For every 16-bit value, the two big-endian bytes and checksum that
    the baseline setter builds are three bytes, and a reply made of them
    decodes, checksum verified, to the value itself. *)
Theorem word_roundtrip
    (v : Z) (w : world) (addr : Z) (command : list Z) (delay : Z) (rest : list Z) :
  is_word16 v ->
  handle_at w addr ->
  forallb is_byteb command = true ->
  rx w = baseline_word v ++ rest ->
  Forall is_byte (baseline_word v) /\
  _i2c_read_words_from_cmd command delay 1 w =
    (Return (VList [v]),
     World (self w) rest
           (trace w ++ [EvWriteto addr command; EvSleep delay; EvReadfromInto addr 3])).
Proof.
  intros Hv Hh Hc Hrx. split; [now apply baseline_word_bytes|].
  rewrite (transaction_reply w addr) by (auto; rewrite Hrx; simpl; lia).
  rewrite Hrx. cbv zeta.
  rewrite (for_each_read_word_ok _ 1).
  - cbn [map seq app]. unfold word_at, baseline_word.
    cbn [nth app Nat.mul Nat.add firstn skipn].
    now rewrite join_split.
  - simpl. lia.
  - intros i Hi. apply in_seq in Hi. assert (i = 0%nat) as -> by lia.
    split; [lia|]. unfold crc_okb, baseline_word.
    cbn [nth app Nat.mul Nat.add firstn].
    apply Z.eqb_refl.
Qed.

Lemma word_roundtrip_witness :
  Forall is_byte (baseline_word 0xBEEF) /\
  _i2c_read_words_from_cmd [0x20; 0x15] 10 1 (sample_world (baseline_word 0xBEEF ++ [0x07])) =
    (Return (VList [0xBEEF]),
     World (self (sample_world (baseline_word 0xBEEF ++ [0x07]))) [0x07]
           (trace (sample_world (baseline_word 0xBEEF ++ [0x07])) ++
            [EvWriteto _SGP30_DEFAULT_I2C_ADDR [0x20; 0x15]; EvSleep 10;
             EvReadfromInto _SGP30_DEFAULT_I2C_ADDR 3])).
Proof.
  apply (word_roundtrip 0xBEEF (sample_world (baseline_word 0xBEEF ++ [0x07]))
           _SGP30_DEFAULT_I2C_ADDR [0x20; 0x15] 10 [0x07]).
  - unfold is_word16. lia.
  - split; reflexivity.
  - reflexivity.
  - reflexivity.
Defined.

(** ** Construction *)

Section Construction.

#[local] Arguments generate_crc : simpl never.

Lemma handle_before_serial (address : Z) (r : list Z) (t : list event) :
  handle_at (World (attrs_before_serial address) r t) address.
Proof. split; reflexivity. Qed.

Lemma handle_after_serial (address : Z) (v : pyval) (r : list Z) (t : list event) :
  handle_at (World (<["serial" := v]> (attrs_before_serial address)) r t) address.
Proof. split; reflexivity. Qed.

End Construction.

(** C4. When the serial words arrive intact and the feature-set word read
    back after command [0x20, 0x2F] is not 0x0020, construction raises the
    not-detected error: the constructor call returns no handle, and the
    IAQ-initialisation command [0x20, 0x03] is never written. *)
Theorem wrong_featureset_fails_construction
    (address : Z) (w : world)
    (s0 s1 c0 s2 s3 c1 s4 s5 c2 f0 f1 fc : Z) (rest : list Z) :
  rx w = [s0; s1; c0; s2; s3; c1; s4; s5; c2; f0; f1; fc] ++ rest ->
  generate_crc [s0; s1] = c0 ->
  generate_crc [s2; s3] = c1 ->
  generate_crc [s4; s5] = c2 ->
  generate_crc [f0; f1] = fc ->
  Z.lor (Z.shiftl f0 8) f1 <> _SGP30_FEATURESET ->
  exists w',
    SGP30 address w = (Raise (RuntimeError "SGP30 Not detected"), w') /\
    trace w' = trace w ++
      [EvWriteto address [0x36; 0x82]; EvSleep 10; EvReadfromInto address 9;
       EvWriteto address [0x20; 0x2f]; EvSleep 10; EvReadfromInto address 3] /\
    forall a, ~ In (EvWriteto a [0x20; 0x03]) (drop (length (trace w)) (trace w')).
Proof.
  intros Hrx H0 H1 H2 Hf Hne.
  unfold SGP30, __init__, mbind, M_bind.
  cbn [setattr self rx trace].
  fold (attrs_before_serial address).
  rewrite (transaction_spec _ address) by (auto using handle_before_serial; lia).
  cbn [self rx trace]. rewrite Hrx.
  cbn [Nat.mul Nat.add length app Nat.leb firstn skipn seq forallb map].
  unfold crc_okb at 1 2 3. cbn [nth Nat.mul Nat.add].
  rewrite H0, H1, H2, !Z.eqb_refl. cbn [andb self rx trace].
  rewrite (transaction_spec _ address) by (auto using handle_after_serial; lia).
  cbn [self rx trace Nat.mul Nat.add length app Nat.leb firstn skipn seq forallb map].
  unfold crc_okb, word_at. cbn [nth Nat.mul Nat.add].
  rewrite Hf, Z.eqb_refl. cbn [andb subscript getitem lookup list_lookup mret M_ret].
  apply Z.eqb_neq in Hne. rewrite Hne. cbn [negb raise].
  eexists. split; [reflexivity|]. cbn [trace]. split.
  - rewrite <- !app_assoc. reflexivity.
  - intros a. rewrite <- !app_assoc, drop_app_length. cbn.
    intros [H|[H|[H|[H|[H|[H|[]]]]]]]; discriminate H.
Qed.

Lemma wrong_featureset_fails_construction_witness :
  exists w',
    SGP30 0x58
      (World ∅ [0x00; 0x01; generate_crc [0x00; 0x01];
                0x00; 0x02; generate_crc [0x00; 0x02];
                0x00; 0x03; generate_crc [0x00; 0x03];
                0x00; 0x21; generate_crc [0x00; 0x21]] []) =
      (Raise (RuntimeError "SGP30 Not detected"), w') /\
    trace w' = [] ++
      [EvWriteto 0x58 [0x36; 0x82]; EvSleep 10; EvReadfromInto 0x58 9;
       EvWriteto 0x58 [0x20; 0x2f]; EvSleep 10; EvReadfromInto 0x58 3] /\
    forall a, ~ In (EvWriteto a [0x20; 0x03]) (drop (length (@nil event)) (trace w')).
Proof.
  apply (wrong_featureset_fails_construction 0x58
           (World ∅ [0x00; 0x01; generate_crc [0x00; 0x01];
                     0x00; 0x02; generate_crc [0x00; 0x02];
                     0x00; 0x03; generate_crc [0x00; 0x03];
                     0x00; 0x21; generate_crc [0x00; 0x21]] [])
           0x00 0x01 (generate_crc [0x00; 0x01])
           0x00 0x02 (generate_crc [0x00; 0x02])
           0x00 0x03 (generate_crc [0x00; 0x03])
           0x00 0x21 (generate_crc [0x00; 0x21]) []).
  - reflexivity.
  - reflexivity.
  - reflexivity.
  - reflexivity.
  - reflexivity.
  - vm_compute. discriminate.
Defined.

(** ** The baseline setter *)

Section Baseline.

#[local] Arguments generate_crc : simpl never.

(** The command the setter hands to [_run_profile]. *)
Lemma setter_unfold (co2 tvoc : Z) (w : world) :
  iaq_baseline_setter co2 tvoc w =
    if (co2 =? 0) && (tvoc =? 0)
    then (Raise (RuntimeError "Invalid baseline"), w)
    else match _i2c_read_words_from_cmd
                 ([0x20; 0x1e] ++ baseline_word tvoc ++ baseline_word co2) 10 0 w with
         | (Return _, w') => (Return VNone, w')
         | (Raise e, w') => (Raise e, w')
         end.
Proof.
  unfold iaq_baseline_setter. destruct ((co2 =? 0) && (tvoc =? 0)); reflexivity.
Qed.

Lemma transaction_invalid_command
    (w : world) (addr : Z) (command : list Z) (delay : Z) (n : nat) :
  handle_at w addr ->
  forallb is_byteb command = false ->
  _i2c_read_words_from_cmd command delay n w = (Raise ValueError, w).
Proof.
  intros Hh Hc. unfold _i2c_read_words_from_cmd, mbind, M_bind.
  rewrite (the_i2c_handle w addr Hh), (the_addr_handle w addr Hh).
  unfold bytes. now rewrite Hc.
Qed.

(** A command without reply raises nothing but what the attribute lookups
    and [bytes] raise. *)
Lemma transaction_no_reply_errors
    (w : world) (command : list Z) (delay : Z) (msg : string) :
  fst (_i2c_read_words_from_cmd command delay 0 w) <> Raise (RuntimeError msg).
Proof.
  unfold _i2c_read_words_from_cmd, the_i2c, the_addr, getattr, bytes, mbind, M_bind.
  destruct (self w !! "_i2c") as [[]|]; cbn; try discriminate.
  destruct (self w !! "_addr") as [[]|]; cbn; try discriminate.
  destruct (forallb is_byteb command); cbn; discriminate.
Qed.

Lemma is_byteb_shiftr8 (v : Z) : is_byteb (Z.shiftr v 8) = true <-> is_word16 v.
Proof.
  unfold is_byteb, is_word16. rewrite Z.shiftr_div_pow2 by lia.
  change (2 ^ 8) with 256.
  rewrite andb_true_iff, Z.leb_le, Z.ltb_lt.
  pose proof (Z.div_mod v 256 ltac:(lia)).
  pose proof (Z.mod_pos_bound v 256 ltac:(lia)).
  lia.
Qed.

Lemma is_byteb_range (b : Z) : 0 <= b < 256 -> is_byteb b = true.
Proof.
  intros Hb. unfold is_byteb. apply andb_true_iff.
  rewrite Z.leb_le, Z.ltb_lt. exact Hb.
Qed.

Lemma baseline_word_is_byteb (v : Z) :
  forallb is_byteb (baseline_word v) = true <-> is_word16 v.
Proof.
  unfold baseline_word. cbn [forallb app].
  rewrite (is_byteb_range (Z.land v 0xFF)) by apply (mask8_range v).
  rewrite (is_byteb_range (generate_crc _)) by apply generate_crc_range.
  rewrite !andb_true_r. apply is_byteb_shiftr8.
Qed.

Lemma setter_command_is_byteb (co2 tvoc : Z) :
  forallb is_byteb ([0x20; 0x1e] ++ baseline_word tvoc ++ baseline_word co2) = true <->
  is_word16 tvoc /\ is_word16 co2.
Proof.
  rewrite !forallb_app, !andb_true_iff, !baseline_word_is_byteb.
  cbn. intuition.
Qed.

End Baseline.

(** C5. The pair (0, 0) is rejected with the invalid-baseline error and the
    world is left as it was: nothing is written to the bus.  No other pair
    is rejected by that check, and for every pair of 16-bit values that is
    not (0, 0) the command is written to the bus. *)
Theorem zero_baseline_rejected_before_bus :
  (forall w : world,
     iaq_baseline_setter 0 0 w = (Raise (RuntimeError "Invalid baseline"), w)) /\
  (forall (w : world) (co2 tvoc : Z),
     co2 <> 0 \/ tvoc <> 0 ->
     fst (iaq_baseline_setter co2 tvoc w) <> Raise (RuntimeError "Invalid baseline")) /\
  (forall (w : world) (addr co2 tvoc : Z),
     handle_at w addr ->
     is_word16 co2 -> is_word16 tvoc ->
     co2 <> 0 \/ tvoc <> 0 ->
     iaq_baseline_setter co2 tvoc w =
       (Return VNone,
        World (self w) (rx w)
              (trace w ++
               [EvWriteto addr ([0x20; 0x1e] ++ baseline_word tvoc ++ baseline_word co2);
                EvSleep 10]))).
Proof.
  split; [|split].
  - intros w. reflexivity.
  - intros w co2 tvoc Hnz. rewrite setter_unfold.
    assert (Hchk : (co2 =? 0) && (tvoc =? 0) = false).
    { apply andb_false_iff. rewrite !Z.eqb_neq. exact Hnz. }
    rewrite Hchk.
    pose proof (transaction_no_reply_errors w
                  ([0x20; 0x1e] ++ baseline_word tvoc ++ baseline_word co2)
                  10 "Invalid baseline") as Hne.
    destruct (_i2c_read_words_from_cmd _ _ _ _) as [[v|e] w']; cbn in *.
    + discriminate.
    + exact Hne.
  - intros w addr co2 tvoc Hh Hc Ht Hnz. rewrite setter_unfold.
    assert (Hchk : (co2 =? 0) && (tvoc =? 0) = false).
    { apply andb_false_iff. rewrite !Z.eqb_neq. exact Hnz. }
    rewrite Hchk.
    rewrite (transaction_no_reply w addr); [reflexivity|assumption|].
    apply setter_command_is_byteb. split; assumption.
Qed.

Lemma zero_baseline_rejected_before_bus_witness :
  iaq_baseline_setter 0x8A12 0x0000 (sample_world []) =
    (Return VNone,
     World (self (sample_world [])) []
           ([] ++ [EvWriteto _SGP30_DEFAULT_I2C_ADDR
                     ([0x20; 0x1e] ++ baseline_word 0x0000 ++ baseline_word 0x8A12);
                   EvSleep 10])).
Proof.
  apply (proj2 (proj2 zero_baseline_rejected_before_bus)
           (sample_world []) _SGP30_DEFAULT_I2C_ADDR 0x8A12 0x0000).
  - split; reflexivity.
  - unfold is_word16. lia.
  - unfold is_word16. lia.
  - left. lia.
Defined.

(** C7. A set-baseline call that returns has written exactly the opcode
    [0x20, 0x1E] followed by the TVOC value as two big-endian bytes and
    their checksum, then the CO2-equivalent value likewise; both values are
    16-bit.  Read back through the baseline getter, that payload comes out
    as [tvoc, co2]: the reverse of the (CO2, TVOC) order of the getter. *)
Theorem set_baseline_payload_order
    (w : world) (addr co2 tvoc : Z) (v : pyval) (w' : world) :
  handle_at w addr ->
  iaq_baseline_setter co2 tvoc w = (Return v, w') ->
  v = VNone /\
  is_word16 tvoc /\ is_word16 co2 /\
  w' = World (self w) (rx w)
         (trace w ++
          [EvWriteto addr
             [0x20; 0x1e;
              Z.shiftr tvoc 8; Z.land tvoc 0xFF;
              generate_crc [Z.shiftr tvoc 8; Z.land tvoc 0xFF];
              Z.shiftr co2 8; Z.land co2 0xFF;
              generate_crc [Z.shiftr co2 8; Z.land co2 0xFF]];
           EvSleep 10]) /\
  forall (g : world) (rest : list Z),
    handle_at g addr ->
    rx g = baseline_word tvoc ++ baseline_word co2 ++ rest ->
    fst (iaq_baseline g) = Return (VList [tvoc; co2]).
Proof.
  intros Hh Hrun. rewrite setter_unfold in Hrun.
  destruct ((co2 =? 0) && (tvoc =? 0)); [discriminate|].
  destruct (forallb is_byteb ([0x20; 0x1e] ++ baseline_word tvoc ++ baseline_word co2))
    eqn:Hcmd.
  - rewrite (transaction_no_reply w addr) in Hrun by assumption.
    injection Hrun as <- <-.
    apply setter_command_is_byteb in Hcmd. destruct Hcmd as [Ht Hc].
    repeat split; try apply Ht; try apply Hc.
    intros g rest Hg Hrx.
    unfold iaq_baseline, _run_profile.
    rewrite (transaction_spec g addr) by (auto; lia).
    rewrite Hrx. unfold baseline_word.
    cbn [Nat.mul Nat.add length app Nat.leb firstn skipn seq forallb map].
    unfold crc_okb, word_at. cbn [nth Nat.mul Nat.add].
    rewrite !Z.eqb_refl, !join_split. reflexivity.
  - rewrite (transaction_invalid_command w addr) in Hrun by assumption.
    discriminate.
Qed.

Lemma set_baseline_payload_order_witness :
  VNone = VNone /\
  is_word16 0x8B34 /\ is_word16 0x8A12 /\
  World (self (sample_world [])) []
        [EvWriteto _SGP30_DEFAULT_I2C_ADDR
           ([0x20; 0x1e] ++ baseline_word 0x8B34 ++ baseline_word 0x8A12);
         EvSleep 10] =
  World (self (sample_world [])) (rx (sample_world []))
        (trace (sample_world []) ++
         [EvWriteto _SGP30_DEFAULT_I2C_ADDR
            [0x20; 0x1e;
             Z.shiftr 0x8B34 8; Z.land 0x8B34 0xFF;
             generate_crc [Z.shiftr 0x8B34 8; Z.land 0x8B34 0xFF];
             Z.shiftr 0x8A12 8; Z.land 0x8A12 0xFF;
             generate_crc [Z.shiftr 0x8A12 8; Z.land 0x8A12 0xFF]];
          EvSleep 10]) /\
  forall (g : world) (rest : list Z),
    handle_at g _SGP30_DEFAULT_I2C_ADDR ->
    rx g = baseline_word 0x8B34 ++ baseline_word 0x8A12 ++ rest ->
    fst (iaq_baseline g) = Return (VList [0x8B34; 0x8A12]).
Proof.
  apply (set_baseline_payload_order (sample_world []) _SGP30_DEFAULT_I2C_ADDR
           0x8A12 0x8B34).
  - split; reflexivity.
  - reflexivity.
Defined.

(** ** Measuring *)

(** C6. On a handle whose device delivers six bytes, measure-IAQ writes
    exactly [0x20, 0x08], sleeps 50 ms and reads exactly 6 bytes; with both
    checksums right it returns the two decoded words as a 2-element list,
    whose first element is what [co2_equivalent] gives and whose second is
    what [tvoc] gives; with a checksum wrong it raises and returns nothing. *)
Theorem iaq_measure_transaction
    (w : world) (addr : Z) (b0 b1 c0 b2 b3 c1 : Z) (rest : list Z) :
  handle_at w addr ->
  rx w = [b0; b1; c0; b2; b3; c1] ++ rest ->
  let w' := World (self w) rest
              (trace w ++ [EvWriteto addr [0x20; 0x08]; EvSleep 50;
                           EvReadfromInto addr 6]) in
  let co2 := Z.lor (Z.shiftl b0 8) b1 in
  let voc := Z.lor (Z.shiftl b2 8) b3 in
  iaq_measure w =
    (if (generate_crc [b0; b1] =? c0) && (generate_crc [b2; b3] =? c1)
     then Return (VList [co2; voc])
     else Raise (RuntimeError "CRC Error"), w') /\
  (generate_crc [b0; b1] = c0 -> generate_crc [b2; b3] = c1 ->
   iaq_measure w = (Return (VList [co2; voc]), w') /\
   co2_equivalent w = (Return co2, w') /\
   tvoc w = (Return voc, w')).
Proof.
  intros Hh Hrx w' co2 voc.
  assert (Hrun : iaq_measure w =
    (if (generate_crc [b0; b1] =? c0) && (generate_crc [b2; b3] =? c1)
     then Return (VList [co2; voc])
     else Raise (RuntimeError "CRC Error"), w')).
  { unfold iaq_measure, _run_profile.
    rewrite (transaction_spec w addr) by (auto; lia).
    rewrite Hrx.
    cbn [Nat.mul Nat.add length app Nat.leb firstn skipn seq forallb map].
    unfold crc_okb, word_at. cbn [nth Nat.mul Nat.add].
    rewrite andb_true_r.
    destruct ((generate_crc [b0; b1] =? c0) && (generate_crc [b2; b3] =? c1));
      reflexivity. }
  split; [exact Hrun|].
  intros H0 H1. rewrite H0, H1, !Z.eqb_refl in Hrun. cbn [andb] in Hrun.
  split; [exact Hrun|].
  unfold co2_equivalent, tvoc, mbind, M_bind. rewrite Hrun. split; reflexivity.
Qed.

Lemma iaq_measure_transaction_witness :
  let w := sample_world [0x01; 0x90; generate_crc [0x01; 0x90];
                         0x00; 0x05; generate_crc [0x00; 0x05]; 0x07] in
  let w' := World (self w) [0x07]
              (trace w ++ [EvWriteto _SGP30_DEFAULT_I2C_ADDR [0x20; 0x08]; EvSleep 50;
                           EvReadfromInto _SGP30_DEFAULT_I2C_ADDR 6]) in
  iaq_measure w = (Return (VList [400; 5]), w') /\
  co2_equivalent w = (Return 400, w') /\
  tvoc w = (Return 5, w').
Proof.
  intros w w'.
  apply (proj2 (iaq_measure_transaction w _SGP30_DEFAULT_I2C_ADDR
                  0x01 0x90 (generate_crc [0x01; 0x90])
                  0x00 0x05 (generate_crc [0x00; 0x05]) [0x07]
                  (conj eq_refl eq_refl) eq_refl)
               eq_refl eq_refl).
Defined.

(** ** The attributes of the handle *)

Section Attributes.

#[local] Arguments generate_crc : simpl never.

Lemma keeps_self_ret {A : Type} (a : A) : keeps_self (mret a).
Proof. intros w. reflexivity. Qed.

Lemma keeps_self_raise {A : Type} (e : exn) : keeps_self (@raise A e).
Proof. intros w. reflexivity. Qed.

Lemma keeps_self_bind {A B : Type} (m : M A) (f : A -> M B) :
  keeps_self m -> (forall a, keeps_self (f a)) -> keeps_self (m ≫= f).
Proof.
  intros Hm Hf w. unfold mbind, M_bind.
  specialize (Hm w). destruct (m w) as [[a|e] w1]; cbn in *.
  - now rewrite Hf.
  - exact Hm.
Qed.

Lemma keeps_self_emit (e : event) : keeps_self (emit e).
Proof. intros w. reflexivity. Qed.

Lemma keeps_self_getattr (name : string) : keeps_self (getattr name).
Proof. intros w. unfold getattr. destruct (self w !! name); reflexivity. Qed.

Lemma keeps_self_getitem (l : list Z) (i : nat) : keeps_self (getitem l i).
Proof. intros w. unfold getitem. destruct (l !! i); reflexivity. Qed.

Lemma keeps_self_subscript (v : pyval) (i : nat) : keeps_self (subscript v i).
Proof.
  destruct v; try apply keeps_self_raise. apply keeps_self_getitem.
Qed.

Lemma keeps_self_bytes (command : list Z) : keeps_self (bytes command).
Proof. intros w. unfold bytes. destruct (forallb is_byteb command); reflexivity. Qed.

Lemma keeps_self_readfrom_into (addr : Z) (buf : list Z) :
  keeps_self (readfrom_into addr buf).
Proof.
  intros w. unfold readfrom_into.
  destruct (length buf <=? length (rx w))%nat; reflexivity.
Qed.

Lemma keeps_self_the_i2c : keeps_self the_i2c.
Proof.
  apply keeps_self_bind; [apply keeps_self_getattr|].
  intros []; first [apply keeps_self_ret | apply keeps_self_raise].
Qed.

Lemma keeps_self_the_addr : keeps_self the_addr.
Proof.
  apply keeps_self_bind; [apply keeps_self_getattr|].
  intros []; first [apply keeps_self_ret | apply keeps_self_raise].
Qed.

Lemma keeps_self_read_word (buf : list Z) (i : nat) (acc : list Z) :
  keeps_self (read_word buf i acc).
Proof.
  unfold read_word.
  repeat (apply keeps_self_bind; [apply keeps_self_getitem|intros ?]).
  destruct (negb _); [apply keeps_self_raise|apply keeps_self_ret].
Qed.

Lemma keeps_self_for_each {A S : Type} (body : A -> S -> M S) (xs : list A) :
  (forall x s, keeps_self (body x s)) ->
  forall s, keeps_self (for_each xs body s).
Proof.
  intros Hbody. induction xs as [|x xs IH]; intros s; simpl.
  - apply keeps_self_ret.
  - apply keeps_self_bind; [apply Hbody|apply IH].
Qed.

Lemma keeps_self_transaction (command : list Z) (delay : Z) (n : nat) :
  keeps_self (_i2c_read_words_from_cmd command delay n).
Proof.
  unfold _i2c_read_words_from_cmd.
  apply keeps_self_bind; [apply keeps_self_the_i2c|intros _].
  apply keeps_self_bind; [apply keeps_self_the_addr|intros addr].
  apply keeps_self_bind; [apply keeps_self_bytes|intros buf].
  apply keeps_self_bind; [apply keeps_self_emit|intros _].
  apply keeps_self_bind; [apply keeps_self_emit|intros _].
  destruct (n =? 0)%nat; [apply keeps_self_ret|].
  apply keeps_self_bind; [apply keeps_self_the_i2c|intros _].
  apply keeps_self_bind; [apply keeps_self_the_addr|intros addr'].
  apply keeps_self_bind; [apply keeps_self_readfrom_into|intros crc_result].
  apply keeps_self_bind; [|intros result; apply keeps_self_ret].
  apply keeps_self_for_each. intros i acc. apply keeps_self_read_word.
Qed.

Lemma keeps_self_run_operation (o : operation) : keeps_self (run_operation o).
Proof.
  destruct o as [| | |c v| | | |]; cbn [run_operation].
  - apply keeps_self_bind; [apply keeps_self_transaction|intros _; apply keeps_self_ret].
  - apply keeps_self_transaction.
  - apply keeps_self_transaction.
  - unfold iaq_baseline_setter.
    destruct ((_ =? 0) && (_ =? 0)); [apply keeps_self_raise|].
    apply keeps_self_bind; [apply keeps_self_transaction|intros _; apply keeps_self_ret].
  - apply keeps_self_bind; [|intros z; apply keeps_self_ret].
    apply keeps_self_bind; [apply keeps_self_transaction|intros r; apply keeps_self_subscript].
  - apply keeps_self_bind; [|intros z; apply keeps_self_ret].
    apply keeps_self_bind; [apply keeps_self_transaction|intros r; apply keeps_self_subscript].
  - apply keeps_self_bind; [|intros z; apply keeps_self_ret].
    apply keeps_self_bind; [|intros r; apply keeps_self_subscript].
    apply keeps_self_bind; [apply keeps_self_getattr|intros _; apply keeps_self_raise].
  - apply keeps_self_bind; [|intros z; apply keeps_self_ret].
    apply keeps_self_bind; [|intros r; apply keeps_self_subscript].
    apply keeps_self_bind; [apply keeps_self_getattr|intros _; apply keeps_self_raise].
Qed.

(** The attributes of a constructed handle: none holds a boolean. *)
Lemma constructed_attrs_no_bool (address : Z) (ser : list Z) (name : string) (b : bool) :
  (<["serial" := VList ser]> (attrs_before_serial address)) !! name <> Some (VBool b).
Proof.
  unfold attrs_before_serial. intros H.
  apply lookup_insert_Some in H as [[_ H]|[_ H]]; [discriminate|].
  apply lookup_insert_Some in H as [[_ H]|[_ H]]; [discriminate|].
  apply lookup_insert_Some in H as [[_ H]|[_ H]]; [discriminate|].
  rewrite lookup_empty in H. discriminate.
Qed.

End Attributes.

Section ConstructedHandle.

#[local] Arguments generate_crc : simpl never.

Lemma word_at_second_reply (l : list Z) :
  word_at (take 3 (drop 9 l)) 0 = Z.lor (Z.shiftl (nth 9 l 0) 8) (nth 10 l 0).
Proof.
  unfold word_at. cbn [Nat.mul Nat.add].
  rewrite !nth_lookup, !lookup_take_lt, !lookup_drop by lia.
  reflexivity.
Qed.

(** What a construction that returns has done. *)
Lemma construction_returns (address : Z) (w w' : world) :
  SGP30 address w = (Return tt, w') ->
  (exists ser,
     self w' = <["serial" := VList ser]> (attrs_before_serial address)) /\
  Z.lor (Z.shiftl (nth 9 (rx w) 0) 8) (nth 10 (rx w) 0) = _SGP30_FEATURESET.
Proof.
  unfold SGP30, __init__, mbind, M_bind.
  cbn [setattr self rx trace].
  fold (attrs_before_serial address).
  rewrite (transaction_spec _ address) by (auto using handle_before_serial; lia).
  cbn [self rx trace].
  destruct (3 * 3 <=? length (rx w))%nat; [|discriminate].
  destruct (forallb _ (seq 0 3)); [|discriminate].
  cbn [self rx trace].
  rewrite (transaction_spec _ address) by (auto using handle_after_serial; lia).
  cbn [self rx trace].
  destruct (3 * 1 <=? length (drop (3 * 3) (rx w)))%nat; [|discriminate].
  destruct (forallb _ (seq 0 1)); [|discriminate].
  cbn [self rx trace seq map subscript getitem lookup list_lookup mret M_ret].
  change (3 * 3)%nat with 9%nat. change (3 * 1)%nat with 3%nat.
  rewrite word_at_second_reply.
  destruct (Z.eqb_spec (Z.lor (Z.shiftl (nth 9 (rx w) 0) 8) (nth 10 (rx w) 0))
                       _SGP30_FEATURESET) as [Hf|Hf]; [|discriminate].
  cbn [negb]. unfold initalise_indoor_air_quality, _run_profile, mbind, M_bind.
  rewrite (transaction_no_reply _ address) by (auto using handle_after_serial).
  cbn [self rx trace]. intros H. injection H as <-. cbn [self].
  split; [eexists; reflexivity|exact Hf].
Qed.

End ConstructedHandle.

(** C9, as the specification states it, fails: after a construction that
    confirmed the feature set and returned, the handle holds the bus
    reference, the address and the serial words, and no attribute of it --
    [verified] or any other -- is a boolean. *)
Lemma no_verified_flag_counterexample :
  exists w',
    SGP30 _SGP30_DEFAULT_I2C_ADDR genuine_device = (Return tt, w') /\
    self w' !! "verified" = None /\
    ~ exists (name : string) (b : bool), self w' !! name = Some (VBool b).
Proof.
  destruct (SGP30 _SGP30_DEFAULT_I2C_ADDR genuine_device) as [o w'] eqn:Hrun.
  assert (Ho : o = Return tt) by (apply (f_equal fst) in Hrun; vm_compute in Hrun; congruence).
  subst o. exists w'. split; [reflexivity|].
  destruct (construction_returns _ _ _ Hrun) as [[ser Hself] _].
  rewrite Hself. split; [reflexivity|].
  intros [name [b H]]. exact (constructed_attrs_no_bool _ _ _ _ H).
Qed.

(** C9, amended.  The handle stores no verified flag.  A construction
    returns only when the feature-set word read back is 0x0020, and the
    handle it leaves holds exactly the bus reference, the address and the
    serial words, none of them a boolean; no later operation assigns any
    attribute of the handle. *)
Theorem handle_attributes_fixed_at_construction :
  (forall (address : Z) (w w' : world),
     SGP30 address w = (Return tt, w') ->
     Z.lor (Z.shiftl (nth 9 (rx w) 0) 8) (nth 10 (rx w) 0) = _SGP30_FEATURESET /\
     (exists ser,
        self w' = <["serial" := VList ser]>
                    (<["_addr" := VInt address]> (<["_i2c" := VI2C]> ∅))) /\
     (forall (name : string) (b : bool), self w' !! name <> Some (VBool b))) /\
  (forall (o : operation) (w : world), self (snd (run_operation o w)) = self w).
Proof.
  split.
  - intros address w w' Hrun.
    destruct (construction_returns _ _ _ Hrun) as [[ser Hself] Hf].
    split; [exact Hf|]. split; [exists ser; exact Hself|].
    intros name b. rewrite Hself. apply constructed_attrs_no_bool.
  - intros o. apply keeps_self_run_operation.
Qed.

Lemma handle_attributes_fixed_at_construction_witness :
  Z.lor (Z.shiftl (nth 9 (rx genuine_device) 0) 8) (nth 10 (rx genuine_device) 0) =
    _SGP30_FEATURESET /\
  (exists ser,
     self (snd (SGP30 _SGP30_DEFAULT_I2C_ADDR genuine_device)) =
       <["serial" := VList ser]>
         (<["_addr" := VInt _SGP30_DEFAULT_I2C_ADDR]> (<["_i2c" := VI2C]> ∅))) /\
  (forall (name : string) (b : bool),
     self (snd (SGP30 _SGP30_DEFAULT_I2C_ADDR genuine_device)) !! name <> Some (VBool b)).
Proof.
  apply (proj1 handle_attributes_fixed_at_construction
           _SGP30_DEFAULT_I2C_ADDR genuine_device
           (snd (SGP30 _SGP30_DEFAULT_I2C_ADDR genuine_device))).
  vm_compute. reflexivity.
Defined.

(** * Further properties of the code *)

(** ** The checksum as a linear map *)

Section CrcAlgebra.
Import Reference.

Lemma fold_left_two {A B : Type} (f : A -> B -> A) (i : A) (a b : B) :
  fold_left f [a; b] i = f (f i a) b.
Proof. reflexivity. Qed.

Lemma byte_step_pass (c b : Z) : byte_step c b = byte_pass (Z.lxor c b).
Proof. reflexivity. Qed.

Lemma land_lxor_mask (a b m : Z) :
  Z.land (Z.lxor a b) m = Z.lxor (Z.land a m) (Z.land b m).
Proof.
  apply Z.bits_inj'. intros n _.
  rewrite Z.lxor_spec, !Z.land_spec, Z.lxor_spec.
  destruct (Z.testbit a n), (Z.testbit b n), (Z.testbit m n); reflexivity.
Qed.

Lemma land_high_bit (x : Z) : Z.land x 0x80 = 0 \/ Z.land x 0x80 = 0x80.
Proof.
  destruct (Z.testbit x 7) eqn:Hx; [right|left];
    apply Z.bits_inj'; intros n Hn; rewrite Z.land_spec;
    change 0x80 with (2 ^ 7); rewrite Z.pow2_bits_eqb by lia;
    destruct (Z.eqb_spec 7 n) as [<-|Hne].
  - now rewrite Hx.
  - now rewrite andb_false_r.
  - now rewrite Hx, Z.bits_0.
  - now rewrite andb_false_r, Z.bits_0.
Qed.

Lemma truthy_high_bit_lxor (x y : Z) :
  truthy (Z.land (Z.lxor x y) 0x80) =
  xorb (truthy (Z.land x 0x80)) (truthy (Z.land y 0x80)).
Proof.
  rewrite land_lxor_mask.
  destruct (land_high_bit x) as [-> | ->], (land_high_bit y) as [-> | ->];
    reflexivity.
Qed.

Lemma lxor_shuffle (a b c : Z) :
  Z.lxor (Z.lxor a c) (Z.lxor b c) = Z.lxor a b.
Proof.
  apply Z.bits_inj'. intros n _. rewrite !Z.lxor_spec.
  destruct (Z.testbit a n), (Z.testbit b n), (Z.testbit c n); reflexivity.
Qed.

Lemma lxor_shuffle_l (a b c : Z) :
  Z.lxor (Z.lxor c a) (Z.lxor c b) = Z.lxor a b.
Proof.
  apply Z.bits_inj'. intros n _. rewrite !Z.lxor_spec.
  destruct (Z.testbit a n), (Z.testbit b n), (Z.testbit c n); reflexivity.
Qed.

Lemma shift_step_lxor (x y : Z) :
  shift_step (Z.lxor x y) = Z.lxor (shift_step x) (shift_step y).
Proof.
  unfold shift_step. rewrite truthy_high_bit_lxor.
  destruct (truthy (Z.land x 0x80)), (truthy (Z.land y 0x80)); cbn [xorb];
    rewrite ?mask8_lxor, Z.shiftl_lxor, ?mask8_lxor.
  all: apply Z.bits_inj'; intros n _; rewrite !Z.lxor_spec;
    repeat match goal with
           | |- context [Z.testbit ?t n] => destruct (Z.testbit t n)
           end; reflexivity.
Qed.

Lemma iter_shift_step_lxor (n : nat) (x y : Z) :
  Nat.iter n shift_step (Z.lxor x y) =
  Z.lxor (Nat.iter n shift_step x) (Nat.iter n shift_step y).
Proof.
  induction n as [|n IH]; [reflexivity|].
  rewrite !Nat.iter_succ. now rewrite IH, shift_step_lxor.
Qed.

Lemma byte_pass_lxor (x y : Z) :
  byte_pass (Z.lxor x y) = Z.lxor (byte_pass x) (byte_pass y).
Proof. apply iter_shift_step_lxor. Qed.

Lemma shift_step_byte (x : Z) : is_byte (shift_step x).
Proof.
  unfold shift_step. destruct (truthy _); apply mask8_range.
Qed.

Lemma byte_pass_byte (x : Z) : is_byte (byte_pass x).
Proof. apply (shift_step_byte (Nat.iter 7 shift_step x)). Qed.

Lemma lxor_byte (a b : Z) : is_byte a -> is_byte b -> is_byte (Z.lxor a b).
Proof.
  intros Ha Hb. rewrite <- (mask8_byte a Ha), <- (mask8_byte b Hb), <- mask8_lxor.
  apply mask8_range.
Qed.

Lemma in_byte_range (e : Z) : 0 < e < 256 -> In e (map Z.of_nat (seq 1 255)).
Proof.
  intros He. apply in_map_iff. exists (Z.to_nat e). split; [lia|].
  apply in_seq. lia.
Qed.

(** No nonzero byte is sent to zero by a byte pass: checked on all 255. *)
Lemma byte_pass_nonzero_table :
  forallb (fun e => negb (byte_pass e =? 0)) (map Z.of_nat (seq 1 255)) = true.
Proof. vm_compute. reflexivity. Qed.

Lemma byte_pass_nonzero (e : Z) : is_byte e -> e <> 0 -> byte_pass e <> 0.
Proof.
  intros [Hlo Hhi] Hne.
  pose proof byte_pass_nonzero_table as Ht.
  rewrite forallb_forall in Ht.
  specialize (Ht e (in_byte_range e ltac:(lia))).
  apply negb_true_iff, Z.eqb_neq in Ht. exact Ht.
Qed.

Lemma generate_crc_fold (data : list Z) :
  Forall is_byte data -> generate_crc data = fold_left byte_step data 0xFF.
Proof.
  intros Hd. unfold generate_crc.
  apply (fold_crc_update_mask8 data _SGP30_CRC8_INIT Hd).
Qed.

(** The checksum of two bytes, as two byte passes. *)
Lemma generate_crc_pair (a b : Z) :
  is_byte a -> is_byte b ->
  generate_crc [a; b] = byte_pass (Z.lxor (byte_pass (Z.lxor 0xFF a)) b).
Proof.
  intros Ha Hb.
  rewrite generate_crc_fold
    by (repeat (apply List.Forall_cons; [assumption|]); apply List.Forall_nil).
  rewrite fold_left_two, !byte_step_pass. reflexivity.
Qed.

(** Two byte pairs that differ in exactly one byte have different
    checksums. *)
Lemma generate_crc_one_byte_differs (a b a' b' : Z) :
  is_byte a -> is_byte b -> is_byte a' -> is_byte b' ->
  (a' <> a /\ b' = b) \/ (a' = a /\ b' <> b) ->
  generate_crc [a'; b'] <> generate_crc [a; b].
Proof.
  intros Ha Hb Ha' Hb' Hdiff Heq.
  rewrite !generate_crc_pair in Heq by assumption.
  apply (f_equal (fun z => Z.lxor z
           (byte_pass (Z.lxor (byte_pass (Z.lxor 0xFF a)) b)))) in Heq.
  rewrite Z.lxor_nilpotent, <- byte_pass_lxor in Heq.
  destruct Hdiff as [[Hne ->]|[-> Hne]].
  - rewrite lxor_shuffle, <- byte_pass_lxor, lxor_shuffle_l in Heq.
    apply (byte_pass_nonzero (byte_pass (Z.lxor a' a))); [apply byte_pass_byte| |exact Heq].
    apply byte_pass_nonzero; [now apply lxor_byte|].
    intros H0. apply Z.lxor_eq in H0. contradiction.
  - rewrite lxor_shuffle_l in Heq.
    apply (byte_pass_nonzero (Z.lxor b' b)); [now apply lxor_byte| |exact Heq].
    intros H0. apply Z.lxor_eq in H0. contradiction.
Qed.

End CrcAlgebra.

Section CrcContinuation.
Import Reference.

(** Only the low 8 bits of the register matter to what follows. *)
Lemma fold_crc_update_low_bits (ys : list Z) (c : Z) :
  Forall is_byte ys ->
  mask8 (fold_left crc_update ys (mask8 c)) = mask8 (fold_left crc_update ys c).
Proof.
  intros Hys. rewrite !fold_crc_update_mask8 by assumption.
  now rewrite mask8_idem.
Qed.

End CrcContinuation.

(** X1. The checksum can be continued: the checksum of [xs ++ ys] is the
    checksum loop run over [ys] from the 8-bit checksum of [xs], masked. *)
Theorem generate_crc_app (xs ys : list Z) :
  Forall is_byte ys ->
  generate_crc (xs ++ ys) =
  Z.land (fold_left crc_update ys (generate_crc xs)) 0xFF.
Proof.
  intros Hys. unfold generate_crc. rewrite fold_left_app.
  symmetry. apply (fold_crc_update_low_bits ys _ Hys).
Qed.

Lemma generate_crc_app_witness :
  generate_crc ([0xBE] ++ [0xEF]) =
  Z.land (fold_left crc_update [0xEF] (generate_crc [0xBE])) 0xFF.
Proof.
  apply (generate_crc_app [0xBE] [0xEF]).
  apply List.Forall_cons; [unfold is_byte; lia|apply List.Forall_nil].
Defined.

(** X2. Residue: any data followed by its own checksum has checksum 0, so
    a receiver may check a word and its checksum byte in one pass. *)
Theorem generate_crc_residue (data : list Z) :
  generate_crc (data ++ [generate_crc data]) = 0.
Proof.
  unfold generate_crc at 1. rewrite fold_left_app. cbn [fold_left].
  transitivity (Reference.byte_step (generate_crc data) (generate_crc data)).
  - exact (crc_update_mask8 (fold_left crc_update data _SGP30_CRC8_INIT)
             (generate_crc data) (generate_crc_range data)).
  - rewrite byte_step_pass, Z.lxor_nilpotent. reflexivity.
Qed.

(** X3. A reply word sent as [a, b, generate_crc [a, b]] and received with
    exactly one of its three bytes changed, in any way, is rejected: the
    read raises the CRC error.  Every single-bit flip is such a change. *)
Theorem corrupted_byte_fails_read
    (w : world) (addr : Z) (command : list Z) (delay : Z)
    (a b a' b' c' : Z) (rest : list Z) :
  handle_at w addr ->
  forallb is_byteb command = true ->
  is_byte a -> is_byte b -> is_byte a' -> is_byte b' ->
  rx w = [a'; b'; c'] ++ rest ->
  (a' <> a /\ b' = b /\ c' = generate_crc [a; b]) \/
  (a' = a /\ b' <> b /\ c' = generate_crc [a; b]) \/
  (a' = a /\ b' = b /\ c' <> generate_crc [a; b]) ->
  exists w', _i2c_read_words_from_cmd command delay 1 w =
             (Raise (RuntimeError "CRC Error"), w').
Proof.
  intros Hh Hc Ha Hb Ha' Hb' Hrx Hdiff.
  assert (Hbad : generate_crc [a'; b'] <> c').
  { destruct Hdiff as [[Hne [Hb1 ->]]|[[Ha1 [Hne ->]]|[-> [-> Hne]]]].
    - apply generate_crc_one_byte_differs; auto.
    - apply generate_crc_one_byte_differs; auto.
    - intros H. apply Hne. now symmetry. }
  rewrite (transaction_reply w addr); [|assumption|assumption|lia|rewrite Hrx; cbn; lia].
  cbv zeta.
  rewrite (for_each_read_word_bad _ 1 _ 0%nat).
  - eexists. reflexivity.
  - rewrite length_take, Hrx. cbn. lia.
  - intros j Hj. apply in_seq in Hj. lia.
  - apply in_seq. lia.
  - apply (crc_okb_take_false _ _ _ a' b' c'); [lia| | | |exact Hbad];
      rewrite Hrx; reflexivity.
Qed.

Lemma corrupted_byte_fails_read_witness :
  exists w',
    _i2c_read_words_from_cmd [0x20; 0x15] 10 1
      (sample_world [0xBE; 0xEE; generate_crc [0xBE; 0xEF]]) =
    (Raise (RuntimeError "CRC Error"), w').
Proof.
  apply (corrupted_byte_fails_read
           (sample_world [0xBE; 0xEE; generate_crc [0xBE; 0xEF]])
           _SGP30_DEFAULT_I2C_ADDR [0x20; 0x15] 10
           0xBE 0xEF 0xBE 0xEE (generate_crc [0xBE; 0xEF]) []).
  - split; reflexivity.
  - reflexivity.
  - unfold is_byte; lia.
  - unfold is_byte; lia.
  - unfold is_byte; lia.
  - unfold is_byte; lia.
  - reflexivity.
  - right. left. split; [reflexivity|]. split; [lia|reflexivity].
Defined.

(** ** Construction, continued *)

Section ConstructionOutcomes.

#[local] Arguments generate_crc : simpl never.

(** X4. On a device that answers with intact replies and the feature set
    0x0020, construction returns; the handle holds the three serial words in
    the order received, and the bus has seen exactly the serial, feature-set
    and IAQ-initialisation transactions, in that order, with 10 ms sleeps. *)
Theorem construction_on_genuine_device
    (address : Z) (w : world)
    (s0 s1 c0 s2 s3 c1 s4 s5 c2 f0 f1 fc : Z) (rest : list Z) :
  rx w = [s0; s1; c0; s2; s3; c1; s4; s5; c2; f0; f1; fc] ++ rest ->
  generate_crc [s0; s1] = c0 ->
  generate_crc [s2; s3] = c1 ->
  generate_crc [s4; s5] = c2 ->
  generate_crc [f0; f1] = fc ->
  Z.lor (Z.shiftl f0 8) f1 = _SGP30_FEATURESET ->
  SGP30 address w =
    (Return tt,
     World (<["serial" := VList [Z.lor (Z.shiftl s0 8) s1;
                                 Z.lor (Z.shiftl s2 8) s3;
                                 Z.lor (Z.shiftl s4 8) s5]]>
              (<["_addr" := VInt address]> (<["_i2c" := VI2C]> ∅)))
           rest
           (trace w ++
            [EvWriteto address [0x36; 0x82]; EvSleep 10; EvReadfromInto address 9;
             EvWriteto address [0x20; 0x2f]; EvSleep 10; EvReadfromInto address 3;
             EvWriteto address [0x20; 0x03]; EvSleep 10])).
Proof.
  intros Hrx H0 H1 H2 Hf Heq.
  unfold SGP30, __init__, mbind, M_bind.
  cbn [setattr self rx trace].
  fold (attrs_before_serial address).
  rewrite (transaction_spec _ address) by (auto using handle_before_serial; lia).
  cbn [self rx trace]. rewrite Hrx.
  cbn [Nat.mul Nat.add length app Nat.leb firstn skipn seq forallb map].
  unfold crc_okb at 1 2 3. cbn [nth Nat.mul Nat.add].
  rewrite H0, H1, H2, !Z.eqb_refl. cbn [andb self rx trace].
  rewrite (transaction_spec _ address) by (auto using handle_after_serial; lia).
  cbn [self rx trace Nat.mul Nat.add length app Nat.leb firstn skipn seq forallb map].
  unfold crc_okb, word_at. cbn [nth Nat.mul Nat.add].
  rewrite Hf, Z.eqb_refl.
  cbn [andb self rx trace subscript getitem lookup list_lookup mret M_ret].
  rewrite Heq, Z.eqb_refl. cbn [negb].
  unfold initalise_indoor_air_quality, _run_profile, mbind, M_bind.
  rewrite (transaction_no_reply _ address) by (auto using handle_after_serial).
  cbn [self rx trace mret M_ret]. rewrite <- !app_assoc. reflexivity.
Qed.

Lemma construction_on_genuine_device_witness :
  SGP30 0x58
    (World ∅ [0x00; 0x00; generate_crc [0x00; 0x00];
              0x01; 0xA2; generate_crc [0x01; 0xA2];
              0xB3; 0xC4; generate_crc [0xB3; 0xC4];
              0x00; 0x20; generate_crc [0x00; 0x20]] []) =
    (Return tt,
     World (<["serial" := VList [Z.lor (Z.shiftl 0x00 8) 0x00;
                                 Z.lor (Z.shiftl 0x01 8) 0xA2;
                                 Z.lor (Z.shiftl 0xB3 8) 0xC4]]>
              (<["_addr" := VInt 0x58]> (<["_i2c" := VI2C]> ∅)))
           []
           ([] ++
            [EvWriteto 0x58 [0x36; 0x82]; EvSleep 10; EvReadfromInto 0x58 9;
             EvWriteto 0x58 [0x20; 0x2f]; EvSleep 10; EvReadfromInto 0x58 3;
             EvWriteto 0x58 [0x20; 0x03]; EvSleep 10])).
Proof.
  apply (construction_on_genuine_device 0x58
           (World ∅ [0x00; 0x00; generate_crc [0x00; 0x00];
                     0x01; 0xA2; generate_crc [0x01; 0xA2];
                     0xB3; 0xC4; generate_crc [0xB3; 0xC4];
                     0x00; 0x20; generate_crc [0x00; 0x20]] [])
           0x00 0x00 (generate_crc [0x00; 0x00])
           0x01 0xA2 (generate_crc [0x01; 0xA2])
           0xB3 0xC4 (generate_crc [0xB3; 0xC4])
           0x00 0x20 (generate_crc [0x00; 0x20]) []);
    reflexivity.
Defined.

(** X5. A checksum error in the serial reply ends construction with the CRC
    error after the first transaction: the feature-set command is never
    written and no [serial] attribute has been assigned. *)
Theorem corrupted_serial_fails_construction
    (address : Z) (w : world) (i : nat) (d0 d1 c : Z) :
  (9 <= length (rx w))%nat ->
  (i < 3)%nat ->
  rx w !! (3 * i)%nat = Some d0 ->
  rx w !! (3 * i + 1)%nat = Some d1 ->
  rx w !! (3 * i + 2)%nat = Some c ->
  generate_crc [d0; d1] <> c ->
  exists w',
    SGP30 address w = (Raise (RuntimeError "CRC Error"), w') /\
    trace w' = trace w ++
      [EvWriteto address [0x36; 0x82]; EvSleep 10; EvReadfromInto address 9] /\
    self w' !! "serial" = None.
Proof.
  intros Hlen Hi H0 H1 H2 Hne.
  unfold SGP30, __init__, mbind, M_bind.
  cbn [setattr self rx trace].
  fold (attrs_before_serial address).
  rewrite (transaction_reply _ address)
    by (auto using handle_before_serial; cbn [rx]; lia).
  cbv zeta. cbn [self rx trace].
  rewrite (for_each_read_word_bad _ 3 _ i).
  - eexists. split; [reflexivity|]. cbn [self trace]. split; reflexivity.
  - rewrite length_take. lia.
  - intros j Hj. apply in_seq in Hj. lia.
  - apply in_seq. lia.
  - now apply (crc_okb_take_false _ _ _ d0 d1 c).
Qed.

Lemma corrupted_serial_fails_construction_witness :
  exists w',
    SGP30 0x58
      (World ∅ [0x00; 0x00; generate_crc [0x00; 0x00];
                0x01; 0xA2; 0x00;
                0xB3; 0xC4; generate_crc [0xB3; 0xC4]] []) =
      (Raise (RuntimeError "CRC Error"), w') /\
    trace w' = [] ++
      [EvWriteto 0x58 [0x36; 0x82]; EvSleep 10; EvReadfromInto 0x58 9] /\
    self w' !! "serial" = None.
Proof.
  apply (corrupted_serial_fails_construction 0x58
           (World ∅ [0x00; 0x00; generate_crc [0x00; 0x00];
                     0x01; 0xA2; 0x00;
                     0xB3; 0xC4; generate_crc [0xB3; 0xC4]] [])
           1 0x01 0xA2 0x00).
  - cbn. lia.
  - lia.
  - reflexivity.
  - reflexivity.
  - reflexivity.
  - vm_compute. discriminate.
Defined.

End ConstructionOutcomes.

(** ** Words on the wire *)

Section Words.

#[local] Arguments generate_crc : simpl never.

Lemma log2_below (x n : Z) : 0 < n -> 0 <= x < 2 ^ n -> Z.log2 x < n.
Proof.
  intros Hn [Hlo Hhi]. destruct (Z.eq_dec x 0) as [->|Hx].
  - cbn. lia.
  - apply Z.log2_lt_pow2; lia.
Qed.

Lemma join_word16 (a b : Z) :
  is_byte a -> is_byte b -> is_word16 (Z.lor (Z.shiftl a 8) b).
Proof.
  intros [Ha0 Ha1] [Hb0 Hb1]. unfold is_word16.
  assert (Hs : 0 <= Z.shiftl a 8 < 2 ^ 16).
  { rewrite Z.shiftl_mul_pow2 by lia. change (2 ^ 8) with 256.
    change (2 ^ 16) with 65536. lia. }
  assert (Hnn : 0 <= Z.lor (Z.shiftl a 8) b) by (apply Z.lor_nonneg; lia).
  split; [exact Hnn|].
  destruct (Z.eq_dec (Z.lor (Z.shiftl a 8) b) 0) as [->|Hnz]; [lia|].
  change 65536 with (2 ^ 16). apply Z.log2_lt_pow2; [lia|].
  rewrite Z.log2_lor by lia.
  apply Z.max_lub_lt.
  - apply log2_below; lia.
  - apply log2_below; [lia|]. change (2 ^ 16) with 65536. lia.
Qed.

Lemma split_join_hi (a b : Z) :
  is_byte b -> Z.shiftr (Z.lor (Z.shiftl a 8) b) 8 = a.
Proof.
  intros [Hb0 Hb1]. rewrite Z.shiftr_lor.
  rewrite Z.shiftr_shiftl_l by lia. change (8 - 8) with 0. rewrite Z.shiftl_0_r.
  rewrite (Z.shiftr_div_pow2 b) by lia. change (2 ^ 8) with 256.
  rewrite Z.div_small by lia. apply Z.lor_0_r.
Qed.

Lemma split_join_lo (a b : Z) :
  is_byte b -> Z.land (Z.lor (Z.shiftl a 8) b) 0xFF = b.
Proof.
  intros Hb. rewrite Z.land_lor_distr_l.
  rewrite (mask8_byte b Hb : Z.land b 0xFF = b).
  assert (H0 : Z.land (Z.shiftl a 8) 0xFF = 0).
  { change 0xFF with (Z.ones 8). rewrite Z.land_ones by lia.
    rewrite Z.shiftl_mul_pow2 by lia. apply Z.mod_mul. lia. }
  rewrite H0. apply Z.lor_0_l.
Qed.

Lemma nth_byte (l : list Z) (i : nat) : Forall is_byte l -> is_byte (nth i l 0).
Proof.
  intros Hl. destruct (Nat.lt_ge_cases i (length l)) as [Hi|Hi].
  - rewrite List.Forall_forall in Hl. apply Hl. now apply nth_In.
  - rewrite nth_overflow by lia. unfold is_byte. lia.
Qed.

Lemma word_at_word16 (buf : list Z) (i : nat) :
  Forall is_byte buf -> is_word16 (word_at buf i).
Proof.
  intros Hb. unfold word_at. apply join_word16; now apply nth_byte.
Qed.

End Words.

(** X6. A read that returns gives back nothing for a reply size of 0 and
    otherwise exactly [reply_size] words, each a 16-bit value when the
    device delivers bytes, having consumed exactly [3 * reply_size] bytes
    of the device's output. *)
Theorem read_words_shape
    (w : world) (addr : Z) (command : list Z) (delay : Z) (reply_size : nat)
    (v : pyval) (w' : world) :
  handle_at w addr ->
  Forall is_byte (rx w) ->
  _i2c_read_words_from_cmd command delay reply_size w = (Return v, w') ->
  match v with
  | VNone => reply_size = 0%nat /\ rx w' = rx w
  | VList ws =>
      reply_size <> 0%nat /\ length ws = reply_size /\
      Forall is_word16 ws /\ rx w' = drop (3 * reply_size) (rx w)
  | _ => False
  end.
Proof.
  intros Hh Hrx Hrun.
  destruct (forallb is_byteb command) eqn:Hc.
  2:{ rewrite (transaction_invalid_command w addr) in Hrun by assumption.
      discriminate. }
  destruct reply_size as [|n].
  - rewrite (transaction_no_reply w addr) in Hrun by assumption.
    injection Hrun as <- <-. split; reflexivity.
  - rewrite (transaction_spec w addr) in Hrun by (auto; lia). cbv zeta in Hrun.
    destruct (3 * S n <=? length (rx w))%nat; [|discriminate].
    destruct (forallb (crc_okb _) _); [|discriminate].
    assert (Hv : v = VList (map (word_at (take (3 * S n) (rx w))) (seq 0 (S n))))
      by congruence.
    assert (Hw : rx w' = drop (3 * S n) (rx w))
      by (apply (f_equal snd) in Hrun; cbn [snd] in Hrun; now rewrite <- Hrun).
    clear Hrun. subst v.
    split; [discriminate|]. split; [|split; [|exact Hw]].
    + now rewrite length_map, length_seq.
    + apply List.Forall_forall. intros x Hx.
      apply in_map_iff in Hx as [i [<- _]].
      apply word_at_word16. now apply Forall_take.
Qed.

Lemma read_words_shape_witness :
  match VList [400; 5] with
  | VNone => 2%nat = 0%nat /\ [0x07] = rx (sample_world
               [0x01; 0x90; generate_crc [0x01; 0x90];
                0x00; 0x05; generate_crc [0x00; 0x05]; 0x07])
  | VList ws =>
      2%nat <> 0%nat /\ length ws = 2%nat /\ Forall is_word16 ws /\
      [0x07] = drop (3 * 2) (rx (sample_world
               [0x01; 0x90; generate_crc [0x01; 0x90];
                0x00; 0x05; generate_crc [0x00; 0x05]; 0x07]))
  | _ => False
  end.
Proof.
  apply (read_words_shape
           (sample_world [0x01; 0x90; generate_crc [0x01; 0x90];
                          0x00; 0x05; generate_crc [0x00; 0x05]; 0x07])
           _SGP30_DEFAULT_I2C_ADDR [0x20; 0x08] 50 2 (VList [400; 5])
           (World (self (sample_world [])) [0x07]
                  [EvWriteto _SGP30_DEFAULT_I2C_ADDR [0x20; 0x08]; EvSleep 50;
                   EvReadfromInto _SGP30_DEFAULT_I2C_ADDR 6])).
  - split; reflexivity.
  - vm_compute. repeat (apply List.Forall_cons; [split; [discriminate|reflexivity]|]).
    apply List.Forall_nil.
  - reflexivity.
Defined.

Section Reencode.

#[local] Arguments generate_crc : simpl never.

(** A one-word read in full. *)
Lemma one_word_transaction
    (w : world) (addr : Z) (command : list Z) (delay : Z)
    (a b c : Z) (rest : list Z) :
  handle_at w addr ->
  forallb is_byteb command = true ->
  rx w = [a; b; c] ++ rest ->
  _i2c_read_words_from_cmd command delay 1 w =
    (if generate_crc [a; b] =? c
     then Return (VList [Z.lor (Z.shiftl a 8) b])
     else Raise (RuntimeError "CRC Error"),
     World (self w) rest
           (trace w ++ [EvWriteto addr command; EvSleep delay;
                        EvReadfromInto addr 3])).
Proof.
  intros Hh Hc Hrx.
  rewrite (transaction_spec w addr) by (auto; lia).
  rewrite Hrx.
  cbn [Nat.mul Nat.add length app Nat.leb firstn skipn seq forallb map].
  unfold crc_okb, word_at. cbn [nth Nat.mul Nat.add].
  rewrite andb_true_r.
  destruct (generate_crc [a; b] =? c); reflexivity.
Qed.

(** What a one-word read that returns has seen. *)
Lemma one_word_read_returns
    (w : world) (addr : Z) (command : list Z) (delay : Z)
    (a b c : Z) (rest : list Z) (v : Z) (w' : world) :
  handle_at w addr ->
  rx w = [a; b; c] ++ rest ->
  _i2c_read_words_from_cmd command delay 1 w = (Return (VList [v]), w') ->
  v = Z.lor (Z.shiftl a 8) b /\ generate_crc [a; b] = c.
Proof.
  intros Hh Hrx Hrun.
  destruct (forallb is_byteb command) eqn:Hc.
  2:{ rewrite (transaction_invalid_command w addr) in Hrun by assumption.
      discriminate. }
  rewrite (one_word_transaction w addr command delay a b c rest Hh Hc Hrx) in Hrun.
  destruct (Z.eqb_spec (generate_crc [a; b]) c) as [Hcrc|Hcrc]; [|discriminate].
  split; [congruence|exact Hcrc].
Qed.

Lemma baseline_word_join (a b : Z) :
  is_byte b ->
  baseline_word (Z.lor (Z.shiftl a 8) b) = [a; b; generate_crc [a; b]].
Proof.
  intros Hb. unfold baseline_word.
  rewrite (split_join_hi a b Hb), (split_join_lo a b Hb). reflexivity.
Qed.

End Reencode.

(** X7. Wire to word to wire: when a one-word read of the bytes
    [a, b, c] returns [v], the triple the baseline setter builds for [v] is
    [a, b, c] again. *)
Theorem reply_word_reencodes
    (w : world) (addr : Z) (command : list Z) (delay : Z)
    (a b c : Z) (rest : list Z) (v : Z) (w' : world) :
  handle_at w addr ->
  is_byte a -> is_byte b ->
  rx w = [a; b; c] ++ rest ->
  _i2c_read_words_from_cmd command delay 1 w = (Return (VList [v]), w') ->
  baseline_word v = [a; b; c].
Proof.
  intros Hh Ha Hb Hrx Hrun.
  destruct (one_word_read_returns w addr command delay a b c rest v w' Hh Hrx Hrun)
    as [-> <-].
  now apply baseline_word_join.
Qed.

Lemma reply_word_reencodes_witness :
  baseline_word 0xBEEF = [0xBE; 0xEF; generate_crc [0xBE; 0xEF]].
Proof.
  apply (reply_word_reencodes
           (sample_world [0xBE; 0xEF; generate_crc [0xBE; 0xEF]])
           _SGP30_DEFAULT_I2C_ADDR [0x20; 0x15] 10
           0xBE 0xEF (generate_crc [0xBE; 0xEF]) [] 0xBEEF
           (World (self (sample_world [])) []
                  [EvWriteto _SGP30_DEFAULT_I2C_ADDR [0x20; 0x15]; EvSleep 10;
                   EvReadfromInto _SGP30_DEFAULT_I2C_ADDR 3])).
  - split; reflexivity.
  - unfold is_byte; lia.
  - unfold is_byte; lia.
  - reflexivity.
  - reflexivity.
Defined.

(** ** Operations on a handle, continued *)

Section MoreOperations.

#[local] Arguments generate_crc : simpl never.

(** A measurement whose two words arrive intact. *)
Lemma iaq_measure_intact
    (w : world) (addr : Z) (b0 b1 c0 b2 b3 c1 : Z) (rest : list Z) :
  handle_at w addr ->
  rx w = [b0; b1; c0; b2; b3; c1] ++ rest ->
  generate_crc [b0; b1] = c0 ->
  generate_crc [b2; b3] = c1 ->
  iaq_measure w =
    (Return (VList [Z.lor (Z.shiftl b0 8) b1; Z.lor (Z.shiftl b2 8) b3]),
     World (self w) rest
           (trace w ++ [EvWriteto addr [0x20; 0x08]; EvSleep 50;
                        EvReadfromInto addr 6])).
Proof.
  intros Hh Hrx H0 H1. unfold iaq_measure, _run_profile.
  rewrite (transaction_spec w addr) by (auto; lia).
  rewrite Hrx.
  cbn [Nat.mul Nat.add length app Nat.leb firstn skipn seq forallb map].
  unfold crc_okb, word_at. cbn [nth Nat.mul Nat.add].
  rewrite H0, H1, !Z.eqb_refl. reflexivity.
Qed.

Lemma snd_bind_stateless {A B : Type} (m : M A) (f : A -> M B) (w : world) :
  (forall a w1, snd (f a w1) = w1) ->
  snd ((m ≫= f) w) = snd (m w).
Proof.
  intros Hf. unfold mbind, M_bind.
  destruct (m w) as [[a|e] w1]; cbn [snd]; [apply Hf|reflexivity].
Qed.

Lemma snd_subscript (v : pyval) (i : nat) (w : world) : snd (subscript v i w) = w.
Proof.
  destruct v; try reflexivity. unfold subscript, getitem.
  destruct (l !! i); reflexivity.
Qed.

Lemma snd_get_iaq_baseline (w : world) : snd (get_iaq_baseline w) = w.
Proof.
  unfold get_iaq_baseline, mbind, M_bind, getattr.
  destruct (self w !! "get_iaq_baseline"); reflexivity.
Qed.

(** The events one transaction on a handle adds to the trace. *)
Lemma transaction_events
    (w : world) (addr : Z) (command : list Z) (delay : Z) (n : nat) :
  handle_at w addr ->
  exists evs,
    trace (snd (_i2c_read_words_from_cmd command delay n w)) = trace w ++ evs /\
    Forall (addressed_to addr) evs /\ (length evs <= 3)%nat.
Proof.
  intros Hh. destruct (forallb is_byteb command) eqn:Hc.
  2:{ rewrite (transaction_invalid_command w addr) by assumption.
      exists []. cbn [snd length]. rewrite app_nil_r.
      split; [reflexivity|]. split; [apply List.Forall_nil|lia]. }
  destruct n as [|n].
  - rewrite (transaction_no_reply w addr) by assumption.
    eexists. cbn [snd trace]. split; [reflexivity|].
    split; [|cbn; lia].
    repeat (apply List.Forall_cons; [exact I || reflexivity|]). apply List.Forall_nil.
  - rewrite (transaction_spec w addr) by (auto; lia). cbv zeta.
    exists [EvWriteto addr command; EvSleep delay; EvReadfromInto addr (3 * S n)].
    split; [|split; [|cbn; lia]].
    + destruct (3 * S n <=? length (rx w))%nat; [|reflexivity].
      destruct (forallb (crc_okb _) _); reflexivity.
    + repeat (apply List.Forall_cons; [exact I || reflexivity|]). apply List.Forall_nil.
Qed.

(** A command without reply, in any world: nothing is read. *)
Lemma transaction_no_reply_world (w : world) (command : list Z) (delay : Z) :
  exists evs,
    snd (_i2c_read_words_from_cmd command delay 0 w) =
      World (self w) (rx w) (trace w ++ evs) /\
    forall a n, ~ In (EvReadfromInto a n) evs.
Proof.
  unfold _i2c_read_words_from_cmd, the_i2c, the_addr, getattr, bytes, mbind, M_bind.
  assert (Hnil : World (self w) (rx w) (trace w ++ []) = w)
    by (destruct w; cbn; now rewrite app_nil_r).
  assert (Hno : forall a n, ~ In (EvReadfromInto a n) []) by (intros a n []).
  destruct (self w !! "_i2c") as [[]|]; cbn; try (exists []; now split).
  destruct (self w !! "_addr") as [[]|]; cbn; try (exists []; now split).
  destruct (forallb is_byteb command); cbn; [|exists []; now split].
  exists [EvWriteto z command; EvSleep delay]. split.
  - now rewrite <- app_assoc.
  - intros a n [H|[H|[]]]; discriminate H.
Qed.

End MoreOperations.

(** X8. A baseline value outside 0..65535 makes set-baseline raise
    [ValueError] when the command is turned into bytes, before anything is
    written: the world is left as it was. *)
Theorem out_of_range_baseline_raises
    (w : world) (addr co2 tvoc : Z) :
  handle_at w addr ->
  ~ (is_word16 co2 /\ is_word16 tvoc) ->
  iaq_baseline_setter co2 tvoc w = (Raise ValueError, w).
Proof.
  intros Hh Hout. rewrite setter_unfold.
  destruct ((co2 =? 0) && (tvoc =? 0)) eqn:Hz.
  - exfalso. apply Hout. apply andb_true_iff in Hz as [H1 H2].
    apply Z.eqb_eq in H1, H2. subst. unfold is_word16. lia.
  - destruct (forallb is_byteb ([0x20; 0x1e] ++ baseline_word tvoc ++ baseline_word co2))
      eqn:Hcmd.
    + exfalso. apply Hout. apply setter_command_is_byteb in Hcmd. tauto.
    + now rewrite (transaction_invalid_command w addr).
Qed.

Lemma out_of_range_baseline_raises_witness :
  iaq_baseline_setter 0x10000 0x0001 (sample_world []) =
    (Raise ValueError, sample_world []).
Proof.
  apply (out_of_range_baseline_raises (sample_world []) _SGP30_DEFAULT_I2C_ADDR
           0x10000 0x0001).
  - split; reflexivity.
  - unfold is_word16. lia.
Defined.

(** X9. On every handle a construction has returned, the two baseline
    accessors fail: they call [get_iaq_baseline], which the class does not
    define, so they raise [AttributeError] without touching the bus. *)
Theorem baseline_accessors_raise (address : Z) (w w' : world) :
  SGP30 address w = (Return tt, w') ->
  baseline_tvoc w' = (Raise (AttributeError "get_iaq_baseline"), w') /\
  baseline_co2_equivilant w' = (Raise (AttributeError "get_iaq_baseline"), w').
Proof.
  intros Hrun.
  destruct (construction_returns _ _ _ Hrun) as [[ser Hself] _].
  assert (Hnone : self w' !! "get_iaq_baseline" = None)
    by (rewrite Hself; reflexivity).
  unfold baseline_tvoc, baseline_co2_equivilant, get_iaq_baseline,
    mbind, M_bind, getattr.
  rewrite Hnone. split; reflexivity.
Qed.

Lemma baseline_accessors_raise_witness :
  baseline_tvoc (snd (SGP30 _SGP30_DEFAULT_I2C_ADDR genuine_device)) =
    (Raise (AttributeError "get_iaq_baseline"),
     snd (SGP30 _SGP30_DEFAULT_I2C_ADDR genuine_device)) /\
  baseline_co2_equivilant (snd (SGP30 _SGP30_DEFAULT_I2C_ADDR genuine_device)) =
    (Raise (AttributeError "get_iaq_baseline"),
     snd (SGP30 _SGP30_DEFAULT_I2C_ADDR genuine_device)).
Proof.
  apply (baseline_accessors_raise _SGP30_DEFAULT_I2C_ADDR genuine_device
           (snd (SGP30 _SGP30_DEFAULT_I2C_ADDR genuine_device))).
  vm_compute. reflexivity.
Defined.

(** X10. The two gas properties do not share a measurement: reading
    [co2_equivalent] and then [tvoc] runs two measure-IAQ transactions, and
    the TVOC value comes from the second reply. *)
Theorem two_accessors_two_measurements
    (w : world) (addr : Z)
    (b0 b1 c0 b2 b3 c1 d0 d1 e0 d2 d3 e1 : Z) (rest : list Z) :
  handle_at w addr ->
  rx w = [b0; b1; c0; b2; b3; c1; d0; d1; e0; d2; d3; e1] ++ rest ->
  generate_crc [b0; b1] = c0 -> generate_crc [b2; b3] = c1 ->
  generate_crc [d0; d1] = e0 -> generate_crc [d2; d3] = e1 ->
  read_both w =
    (Return (Z.lor (Z.shiftl b0 8) b1, Z.lor (Z.shiftl d2 8) d3),
     World (self w) rest
           (trace w ++
            [EvWriteto addr [0x20; 0x08]; EvSleep 50; EvReadfromInto addr 6;
             EvWriteto addr [0x20; 0x08]; EvSleep 50; EvReadfromInto addr 6])).
Proof.
  intros Hh Hrx Hb0 Hb1 Hd0 Hd1.
  unfold read_both, co2_equivalent, tvoc, mbind, M_bind.
  rewrite (iaq_measure_intact w addr b0 b1 c0 b2 b3 c1
             ([d0; d1; e0; d2; d3; e1] ++ rest) Hh Hrx Hb0 Hb1).
  cbn [subscript getitem lookup list_lookup mret M_ret].
  rewrite (iaq_measure_intact _ addr d0 d1 e0 d2 d3 e1 rest)
    by first [exact Hh | reflexivity | assumption].
  cbn [subscript getitem lookup list_lookup mret M_ret self trace].
  rewrite <- !app_assoc. reflexivity.
Qed.

Lemma two_accessors_two_measurements_witness :
  read_both (sample_world
     [0x01; 0x90; generate_crc [0x01; 0x90]; 0x00; 0x05; generate_crc [0x00; 0x05];
      0x01; 0x95; generate_crc [0x01; 0x95]; 0x00; 0x09; generate_crc [0x00; 0x09]]) =
    (Return (Z.lor (Z.shiftl 0x01 8) 0x90, Z.lor (Z.shiftl 0x00 8) 0x09),
     World (self (sample_world [])) []
           ([] ++
            [EvWriteto _SGP30_DEFAULT_I2C_ADDR [0x20; 0x08]; EvSleep 50;
             EvReadfromInto _SGP30_DEFAULT_I2C_ADDR 6;
             EvWriteto _SGP30_DEFAULT_I2C_ADDR [0x20; 0x08]; EvSleep 50;
             EvReadfromInto _SGP30_DEFAULT_I2C_ADDR 6])).
Proof.
  apply (two_accessors_two_measurements
           (sample_world
              [0x01; 0x90; generate_crc [0x01; 0x90];
               0x00; 0x05; generate_crc [0x00; 0x05];
               0x01; 0x95; generate_crc [0x01; 0x95];
               0x00; 0x09; generate_crc [0x00; 0x09]])
           _SGP30_DEFAULT_I2C_ADDR
           0x01 0x90 (generate_crc [0x01; 0x90]) 0x00 0x05 (generate_crc [0x00; 0x05])
           0x01 0x95 (generate_crc [0x01; 0x95]) 0x00 0x09 (generate_crc [0x00; 0x09])
           []).
  - split; reflexivity.
  - reflexivity.
  - reflexivity.
  - reflexivity.
  - reflexivity.
  - reflexivity.
Defined.

(** X11. Every operation on a handle talks to the handle's address only and
    makes at most one write, one sleep and one read: the trace grows by at
    most three events, each bus call among them addressed to [addr]. *)
Theorem operations_use_handle_address (o : operation) (w : world) (addr : Z) :
  handle_at w addr ->
  exists evs,
    trace (snd (run_operation o w)) = trace w ++ evs /\
    Forall (addressed_to addr) evs /\ (length evs <= 3)%nat.
Proof.
  intros Hh.
  assert (Hnone : exists evs,
            trace w = trace w ++ evs /\
            Forall (addressed_to addr) evs /\ (length evs <= 3)%nat).
  { exists []. rewrite app_nil_r. split; [reflexivity|].
    split; [apply List.Forall_nil|cbn; lia]. }
  destruct o as [| | |c v| | | |]; cbn [run_operation].
  - unfold initalise_indoor_air_quality, _run_profile.
    rewrite snd_bind_stateless by reflexivity. now apply transaction_events.
  - now apply transaction_events.
  - now apply transaction_events.
  - rewrite setter_unfold. destruct ((c =? 0) && (v =? 0)); [exact Hnone|].
    destruct (transaction_events w addr
                ([0x20; 0x1e] ++ baseline_word v ++ baseline_word c) 10 0 Hh)
      as [evs Hevs].
    exists evs.
    destruct (_i2c_read_words_from_cmd _ _ _ _) as [[r|e] w1]; exact Hevs.
  - rewrite snd_bind_stateless by reflexivity.
    unfold tvoc. rewrite snd_bind_stateless by (intros; apply snd_subscript).
    now apply transaction_events.
  - rewrite snd_bind_stateless by reflexivity.
    unfold co2_equivalent. rewrite snd_bind_stateless by (intros; apply snd_subscript).
    now apply transaction_events.
  - rewrite snd_bind_stateless by reflexivity.
    unfold baseline_tvoc. rewrite snd_bind_stateless by (intros; apply snd_subscript).
    rewrite snd_get_iaq_baseline. exact Hnone.
  - rewrite snd_bind_stateless by reflexivity.
    unfold baseline_co2_equivilant.
    rewrite snd_bind_stateless by (intros; apply snd_subscript).
    rewrite snd_get_iaq_baseline. exact Hnone.
Qed.

Lemma operations_use_handle_address_witness :
  exists evs,
    trace (snd (run_operation OpMeasure
                  (sample_world [0x01; 0x90; generate_crc [0x01; 0x90];
                                 0x00; 0x05; generate_crc [0x00; 0x05]]))) =
      trace (sample_world [0x01; 0x90; generate_crc [0x01; 0x90];
                           0x00; 0x05; generate_crc [0x00; 0x05]]) ++ evs /\
    Forall (addressed_to _SGP30_DEFAULT_I2C_ADDR) evs /\ (length evs <= 3)%nat.
Proof.
  apply (operations_use_handle_address OpMeasure
           (sample_world [0x01; 0x90; generate_crc [0x01; 0x90];
                          0x00; 0x05; generate_crc [0x00; 0x05]])
           _SGP30_DEFAULT_I2C_ADDR).
  split; reflexivity.
Defined.

(** X12. IAQ initialisation and set-baseline never read: in any world they
    leave the device's pending output untouched and add no read to the
    trace. *)
Theorem no_reply_commands_never_read (w : world) :
  (exists evs,
     snd (initalise_indoor_air_quality w) = World (self w) (rx w) (trace w ++ evs) /\
     forall a n, ~ In (EvReadfromInto a n) evs) /\
  (forall co2 tvoc : Z,
     exists evs,
       snd (iaq_baseline_setter co2 tvoc w) = World (self w) (rx w) (trace w ++ evs) /\
       forall a n, ~ In (EvReadfromInto a n) evs).
Proof.
  split.
  - unfold initalise_indoor_air_quality, _run_profile.
    rewrite snd_bind_stateless by reflexivity.
    apply transaction_no_reply_world.
  - intros co2 tvoc. rewrite setter_unfold.
    destruct ((co2 =? 0) && (tvoc =? 0)).
    + exists []. split; [|intros a n []].
      destruct w; cbn. now rewrite app_nil_r.
    + destruct (transaction_no_reply_world w
                  ([0x20; 0x1e] ++ baseline_word tvoc ++ baseline_word co2) 10)
        as [evs Hevs].
      exists evs.
      destruct (_i2c_read_words_from_cmd _ _ _ _) as [[r|e] w1]; exact Hevs.
Qed.

Section SaveRestore.

#[local] Arguments generate_crc : simpl never.

(** A baseline reply whose two words arrive intact. *)
Lemma iaq_baseline_intact
    (w : world) (addr : Z) (b0 b1 c0 b2 b3 c1 : Z) (rest : list Z) :
  handle_at w addr ->
  rx w = [b0; b1; c0; b2; b3; c1] ++ rest ->
  generate_crc [b0; b1] = c0 ->
  generate_crc [b2; b3] = c1 ->
  iaq_baseline w =
    (Return (VList [Z.lor (Z.shiftl b0 8) b1; Z.lor (Z.shiftl b2 8) b3]),
     World (self w) rest
           (trace w ++ [EvWriteto addr [0x20; 0x15]; EvSleep 10;
                        EvReadfromInto addr 6])).
Proof.
  intros Hh Hrx H0 H1. unfold iaq_baseline, _run_profile.
  rewrite (transaction_spec w addr) by (auto; lia).
  rewrite Hrx.
  cbn [Nat.mul Nat.add length app Nat.leb firstn skipn seq forallb map].
  unfold crc_okb, word_at. cbn [nth Nat.mul Nat.add].
  rewrite H0, H1, !Z.eqb_refl. reflexivity.
Qed.

End SaveRestore.

(** X13. Reading the baseline and writing it back: the getter writes
    [0x20, 0x15], sleeps 10 ms and reads 6 bytes; when the two words are
    not both zero, the setter then sends the two triples just received,
    unchanged but in swapped order; when both are zero the setter raises
    the invalid-baseline error and writes nothing. *)
Theorem restore_baseline_swaps_triples
    (w : world) (addr : Z) (b0 b1 c0 b2 b3 c1 : Z) (rest : list Z) :
  handle_at w addr ->
  is_byte b0 -> is_byte b1 -> is_byte b2 -> is_byte b3 ->
  rx w = [b0; b1; c0; b2; b3; c1] ++ rest ->
  generate_crc [b0; b1] = c0 ->
  generate_crc [b2; b3] = c1 ->
  let read := [EvWriteto addr [0x20; 0x15]; EvSleep 10; EvReadfromInto addr 6] in
  restore_baseline w =
    if (Z.lor (Z.shiftl b0 8) b1 =? 0) && (Z.lor (Z.shiftl b2 8) b3 =? 0)
    then (Raise (RuntimeError "Invalid baseline"),
          World (self w) rest (trace w ++ read))
    else (Return VNone,
          World (self w) rest
                (trace w ++ read ++
                 [EvWriteto addr [0x20; 0x1e; b2; b3; c1; b0; b1; c0];
                  EvSleep 10])).
Proof.
  intros Hh Hb0 Hb1 Hb2 Hb3 Hrx H0 H1 read.
  unfold restore_baseline, mbind, M_bind.
  rewrite (iaq_baseline_intact w addr b0 b1 c0 b2 b3 c1 rest Hh Hrx H0 H1).
  cbn [subscript getitem lookup list_lookup mret M_ret].
  rewrite setter_unfold.
  destruct ((Z.lor (Z.shiftl b0 8) b1 =? 0) && (Z.lor (Z.shiftl b2 8) b3 =? 0));
    [reflexivity|].
  rewrite (transaction_no_reply _ addr).
  - rewrite !baseline_word_join by assumption. rewrite H0, H1.
    cbn [self rx trace app]. rewrite <- !app_assoc. reflexivity.
  - exact Hh.
  - apply setter_command_is_byteb. split; now apply join_word16.
Qed.

Lemma restore_baseline_swaps_triples_witness :
  restore_baseline
    (sample_world [0x8A; 0x12; generate_crc [0x8A; 0x12];
                   0x8B; 0x34; generate_crc [0x8B; 0x34]]) =
    if (Z.lor (Z.shiftl 0x8A 8) 0x12 =? 0) && (Z.lor (Z.shiftl 0x8B 8) 0x34 =? 0)
    then (Raise (RuntimeError "Invalid baseline"),
          World (self (sample_world [])) []
                ([] ++ [EvWriteto _SGP30_DEFAULT_I2C_ADDR [0x20; 0x15]; EvSleep 10;
                        EvReadfromInto _SGP30_DEFAULT_I2C_ADDR 6]))
    else (Return VNone,
          World (self (sample_world [])) []
                ([] ++ [EvWriteto _SGP30_DEFAULT_I2C_ADDR [0x20; 0x15]; EvSleep 10;
                        EvReadfromInto _SGP30_DEFAULT_I2C_ADDR 6] ++
                 [EvWriteto _SGP30_DEFAULT_I2C_ADDR
                    [0x20; 0x1e; 0x8B; 0x34; generate_crc [0x8B; 0x34];
                     0x8A; 0x12; generate_crc [0x8A; 0x12]];
                  EvSleep 10])).
Proof.
  apply (restore_baseline_swaps_triples
           (sample_world [0x8A; 0x12; generate_crc [0x8A; 0x12];
                          0x8B; 0x34; generate_crc [0x8B; 0x34]])
           _SGP30_DEFAULT_I2C_ADDR
           0x8A 0x12 (generate_crc [0x8A; 0x12])
           0x8B 0x34 (generate_crc [0x8B; 0x34]) []).
  - split; reflexivity.
  - unfold is_byte; lia.
  - unfold is_byte; lia.
  - unfold is_byte; lia.
  - unfold is_byte; lia.
  - reflexivity.
  - reflexivity.
  - reflexivity.
Defined.
